(** * Heart-health assessment front end: a shallow embedding

    The development follows the TypeScript sources of the repository:
    - [lib/utils.ts]        (getRiskColor, getRiskIcon),
    - [lib/api.ts]          (the axios instance, the six client methods,
                             the payload interfaces),
    - [ResultCard.tsx]      (getRiskDescription),
    - [ManualForm.tsx]      (initial form state, handleSubmit),
    - [UploadCard.tsx]      (onDrop),
    - [App.tsx]             (the four pieces of state and their handlers),
    and, for the server-side explainer that the front end only consumes,
    the normalisation algorithm as the specification words it. *)

From Stdlib Require Import Bool List Ascii String NArith ZArith QArith Lia Lqa.
From Stdlib Require Import Qabs Permutation DecimalString.
Import ListNotations.

Local Open Scope string_scope.

(* ===================================================================== *)
(** ** JavaScript values used by the sources *)
(* ===================================================================== *)

Module JS.

(** [String.prototype.toLowerCase] on one code unit. Strings are byte
    strings here (string literals are their UTF-8 bytes): the letters
    A..Z move to a..z and every other byte stays. The Unicode mapping
    sends no code point outside A..Z to one of the letters of "low",
    "moderate" or "high" alone, so the switch statements below take the
    same branch under the full mapping. *)
Definition lowerChar (c : ascii) : ascii :=
  let n := N_of_ascii c in
  if ((65 <=? n) && (n <=? 90))%N then ascii_of_N (n + 32) else c.

Fixpoint toLowerCase (s : string) : string :=
  match s with
  | EmptyString => EmptyString
  | String c rest => String (lowerChar c) (toLowerCase rest)
  end.

(** What a [throw] hands to a [catch]: an [Error] object with its
    message, or any other value. *)
Inductive thrown : Type :=
| ErrorObj (message : string)
| NonError.

(** [err instanceof Error ? err.message : fallback]. *)
Definition messageOr (fallback : string) (err : thrown) : string :=
  match err with
  | ErrorObj m => m
  | NonError => fallback
  end.

(** A computation that returns or throws (also: a promise that resolves
    or rejects, seen from the [await]). *)
Definition Exc (A : Type) : Type := (thrown + A)%type.

Definition ret {A} (a : A) : Exc A := inr a.
Definition throw {A} (e : thrown) : Exc A := inl e.
Definition bind {A B} (m : Exc A) (k : A -> Exc B) : Exc B :=
  match m with
  | inl e => inl e
  | inr a => k a
  end.

(** [if (cond) { throw new Error(msg) }]. *)
Definition throwIf (cond : bool) (msg : string) : Exc unit :=
  if cond then throw (ErrorObj msg) else ret tt.

(** Numbers are the finite values a JSON payload or [parseInt] yields,
    as the rationals they denote; the sources only compare them. *)
Definition number : Type := Q.

Definition lt (x y : number) : bool := negb (Qle_bool y x).
Definition gt (x y : number) : bool := lt y x.

(** Truthiness, for [x || d]: [0] is falsy, as are [false], [""],
    [undefined] and [null]. *)
Definition truthyNumber (x : number) : bool := negb (Qeq_bool x 0).
Definition truthyString (s : string) : bool :=
  match s with EmptyString => false | _ => true end.

(** [opt?.field || d] for an optional field: [None] is [undefined]. *)
Definition orNumber (x : option number) (d : number) : number :=
  match x with
  | Some v => if truthyNumber v then v else d
  | None => d
  end.
Definition orString (x : option string) (d : string) : string :=
  match x with
  | Some v => if truthyString v then v else d
  | None => d
  end.
Definition orBool (x : option bool) (d : bool) : bool :=
  match x with
  | Some true => true
  | _ => d
  end.

End JS.

(** [m; k]: the statements of a block, one after the other. *)
Notation "m ;;; k" := (JS.bind m (fun _ => k))
  (at level 61, right associativity).

(* ===================================================================== *)
(** ** lib/utils.ts *)
(* ===================================================================== *)

Module Utils.

Definition getRiskColor (riskLevel : string) : string :=
  let l := JS.toLowerCase riskLevel in
  if l =? "low" then "text-green-600 bg-green-50"
  else if l =? "moderate" then "text-yellow-600 bg-yellow-50"
  else if l =? "high" then "text-red-600 bg-red-50"
  else "text-gray-600 bg-gray-50".

Definition getRiskIcon (riskLevel : string) : string :=
  let l := JS.toLowerCase riskLevel in
  if l =? "low" then "✅"
  else if l =? "moderate" then "⚠️"
  else if l =? "high" then "🚨"
  else "❓".

End Utils.

(* ===================================================================== *)
(** ** components/ResultCard.tsx *)
(* ===================================================================== *)

Module ResultCard.

Definition getRiskDescription (level : string) : string :=
  let l := JS.toLowerCase level in
  if l =? "low" then
    "Your risk of heart disease is relatively low. Continue maintaining a healthy lifestyle."
  else if l =? "moderate" then
    "Your risk of heart disease is moderate. Consider lifestyle changes and regular health checkups."
  else if l =? "high" then
    "Your risk of heart disease is high. Please consult a healthcare professional immediately."
  else "Risk assessment completed.".

(** The texts the function can return, in the order of its cases. *)
Definition catalog : list string :=
  [ "Your risk of heart disease is relatively low. Continue maintaining a healthy lifestyle.";
    "Your risk of heart disease is moderate. Consider lifestyle changes and regular health checkups.";
    "Your risk of heart disease is high. Please consult a healthcare professional immediately.";
    "Risk assessment completed." ].

End ResultCard.

(* ===================================================================== *)
(** ** lib/api.ts *)
(* ===================================================================== *)

Module Api.

(** The request body of [/predict]. The union types of the categorical
    fields are checked by the TypeScript compiler only; at run time the
    fields hold strings, and the members of each union are listed in
    [gender_values] and its siblings. *)
Record HeartDiseaseInput : Type := {
  age : JS.number;
  gender : string;
  cholesterol : JS.number;
  blood_pressure : JS.number;
  heart_rate : JS.number;
  smoking : string;
  alcohol_intake : string;
  exercise_hours : JS.number;
  family_history : bool;
  diabetes : bool;
  obesity : bool;
  stress_level : JS.number;
  blood_sugar : JS.number;
  exercise_induced_angina : bool;
  chest_pain_type : string
}.

Definition gender_values : list string := ["Male"; "Female"].
Definition smoking_values : list string := ["Never"; "Former"; "Current"].
Definition alcohol_intake_values : list string := ["None"; "Moderate"; "Heavy"].
Definition chest_pain_type_values : list string :=
  ["Typical Angina"; "Atypical Angina"; "Non-anginal Pain"; "Asymptomatic"].

(** [number | string | boolean]. *)
Inductive FeatureValue : Type :=
| NumberValue (n : JS.number)
| StringValue (s : string)
| BooleanValue (b : bool).

Record FeatureContribution : Type := {
  feature : string;
  value : FeatureValue;
  importance : JS.number
}.

Record HeartDiseasePrediction : Type := {
  risk_score : JS.number;
  risk_level : string;
  top_contributors : list FeatureContribution;
  model_version : string;
  notes : list string
}.

Record UploadResponse : Type := {
  success : bool;
  message : string;
  extracted_data : option HeartDiseaseInput;
  confidence : option JS.number
}.

(** A browser [File], as far as the client looks at it. *)
Record File : Type := {
  file_name : string;
  file_type : string;
  file_size : N
}.

(** *** The axios instance *)

(** The fields of an axios request config that the client sets. A field
    left out of a config is [None]. *)
Record AxiosConfig : Type := {
  baseURL : option string;
  timeout : option Z;
  headers : list (string * string)
}.

Definition noConfig : AxiosConfig :=
  {| baseURL := None; timeout := None; headers := [] |}.

Definition orElse {A} (x y : option A) : option A :=
  match x with Some _ => x | None => y end.

Fixpoint setHeader (k v : string) (hs : list (string * string)) : list (string * string) :=
  match hs with
  | [] => [(k, v)]
  | (k', v') :: rest =>
      if k' =? k then (k, v) :: rest else (k', v') :: setHeader k v rest
  end.

(** axios' [mergeConfig(config1, config2)]: a field of [config2] wins
    over the same field of [config1]; headers are merged key by key. *)
Definition mergeConfig (config1 config2 : AxiosConfig) : AxiosConfig :=
  {| baseURL := orElse (baseURL config2) (baseURL config1);
     timeout := orElse (timeout config2) (timeout config1);
     headers := fold_left (fun hs kv => setHeader (fst kv) (snd kv) hs)
                          (headers config2) (headers config1) |}.

(** The library's own defaults: [timeout: 0], which means no timeout. *)
Definition axiosDefaults : AxiosConfig :=
  {| baseURL := None; timeout := Some 0%Z; headers := [] |}.

(** [axios.create(config)]. *)
Definition create (config : AxiosConfig) : AxiosConfig :=
  mergeConfig axiosDefaults config.

(** [import.meta.env.VITE_API_URL || '/api']. *)
Definition API_BASE_URL (VITE_API_URL : option string) : string :=
  JS.orString VITE_API_URL "/api".

Definition api (VITE_API_URL : option string) : AxiosConfig :=
  create {| baseURL := Some (API_BASE_URL VITE_API_URL);
            timeout := Some 30000%Z;
            headers := [("Content-Type", "application/json")] |}.

(** The request interceptor returns the config it is given. *)
Definition requestInterceptor (config : AxiosConfig) : AxiosConfig := config.

(** The response interceptor returns a response as it is and rejects
    with the error it is given (a 500 is also written to the console). *)
Definition responseInterceptor {A} (response : JS.Exc A) : JS.Exc A :=
  match response with
  | inr r => inr r
  | inl error => inl error
  end.

(** *** The six client methods *)

Inductive HttpMethod : Type := GET | POST.

Inductive Body : Type :=
| NoBody
| JsonBody (inputData : HeartDiseaseInput)
| FormDataBody (file : File).

Inductive ApiCall : Type :=
| Predict (inputData : HeartDiseaseInput)
| UploadFile (file : File)
| UploadImage (file : File)
| GetModelInfo
| HealthCheck
| GetSupportedFormats.

Record Request : Type := {
  method : HttpMethod;
  url : string;
  data : Body;
  config : AxiosConfig
}.

Definition multipart : AxiosConfig :=
  {| baseURL := None; timeout := None;
     headers := [("Content-Type", "multipart/form-data")] |}.

(** [api.get(url)] and [api.post(url, data, config)]: the config of the
    call is merged over the defaults of the instance and then passes the
    request interceptor. *)
Definition get (instance : AxiosConfig) (u : string) : Request :=
  {| method := GET; url := u; data := NoBody;
     config := requestInterceptor (mergeConfig instance noConfig) |}.

Definition post (instance : AxiosConfig) (u : string) (d : Body) (c : AxiosConfig) : Request :=
  {| method := POST; url := u; data := d;
     config := requestInterceptor (mergeConfig instance c) |}.

(** The request each method of [apiClient] issues. *)
Definition request (VITE_API_URL : option string) (call : ApiCall) : Request :=
  let api := api VITE_API_URL in
  match call with
  | Predict inputData => post api "/predict" (JsonBody inputData) noConfig
  | UploadFile file => post api "/upload" (FormDataBody file) multipart
  | UploadImage file => post api "/upload-image" (FormDataBody file) multipart
  | GetModelInfo => get api "/model-info"
  | HealthCheck => get api "/health"
  | GetSupportedFormats => get api "/supported-formats"
  end.

(** *** What axios does with the [timeout] of a request

    This is the library's documented contract, not code of the
    repository: [timeout] is the number of milliseconds before the
    request is aborted, [0] meaning none; an aborted request rejects
    with an error whose message is "timeout of <n>ms exceeded". *)

(** The far end answers after some milliseconds, or never. *)
Inductive Latency : Type :=
| After (ms : Z)
| Never.

(** The promise a call returns, seen from its [await]. *)
Inductive Settled (A : Type) : Type :=
| Resolved (a : A)
| Rejected (e : JS.thrown)
| Pending.
Arguments Resolved {A} a.
Arguments Rejected {A} e.
Arguments Pending {A}.

Definition timeoutError (ms : Z) : JS.thrown :=
  JS.ErrorObj ("timeout of " ++ NilZero.string_of_int (Z.to_int ms) ++ "ms exceeded").

Definition settle {A} (answer : JS.Exc A) : Settled A :=
  match responseInterceptor answer with
  | inr a => Resolved a
  | inl e => Rejected e
  end.

Definition dispatch {A} (r : Request) (l : Latency) (answer : JS.Exc A) : Settled A :=
  match timeout (config r) with
  | Some t =>
      if (0 <? t)%Z then
        match l with
        | After ms => if (ms <=? t)%Z then settle answer
                      else settle (inl (timeoutError t))
        | Never => settle (inl (timeoutError t))
        end
      else
        match l with
        | After _ => settle answer
        | Never => Pending
        end
  | None =>
      match l with
      | After _ => settle answer
      | Never => Pending
      end
  end.

End Api.

(* ===================================================================== *)
(** ** components/ManualForm.tsx *)
(* ===================================================================== *)

Module ManualForm.
Import Api.

(** [Partial<HeartDiseaseInput>]: every field may be missing. *)
Record PartialInput : Type := {
  p_age : option JS.number;
  p_gender : option string;
  p_cholesterol : option JS.number;
  p_blood_pressure : option JS.number;
  p_heart_rate : option JS.number;
  p_smoking : option string;
  p_alcohol_intake : option string;
  p_exercise_hours : option JS.number;
  p_family_history : option bool;
  p_diabetes : option bool;
  p_obesity : option bool;
  p_stress_level : option JS.number;
  p_blood_sugar : option JS.number;
  p_exercise_induced_angina : option bool;
  p_chest_pain_type : option string
}.

(** A complete input, where a partial one is expected. *)
Definition toPartial (d : HeartDiseaseInput) : PartialInput :=
  {| p_age := Some (age d);
     p_gender := Some (gender d);
     p_cholesterol := Some (cholesterol d);
     p_blood_pressure := Some (blood_pressure d);
     p_heart_rate := Some (heart_rate d);
     p_smoking := Some (smoking d);
     p_alcohol_intake := Some (alcohol_intake d);
     p_exercise_hours := Some (exercise_hours d);
     p_family_history := Some (family_history d);
     p_diabetes := Some (diabetes d);
     p_obesity := Some (obesity d);
     p_stress_level := Some (stress_level d);
     p_blood_sugar := Some (blood_sugar d);
     p_exercise_induced_angina := Some (exercise_induced_angina d);
     p_chest_pain_type := Some (chest_pain_type d) |}.

(** [initialData?.field]. *)
Definition opt {A} (initialData : option PartialInput) (field : PartialInput -> option A)
  : option A :=
  match initialData with
  | Some d => field d
  | None => None
  end.

(** The argument of [useState<HeartDiseaseInput>]. *)
Definition initialFormData (initialData : option PartialInput) : HeartDiseaseInput :=
  {| age := JS.orNumber (opt initialData p_age) 50;
     gender := JS.orString (opt initialData p_gender) "Male";
     cholesterol := JS.orNumber (opt initialData p_cholesterol) 200;
     blood_pressure := JS.orNumber (opt initialData p_blood_pressure) 120;
     heart_rate := JS.orNumber (opt initialData p_heart_rate) 72;
     smoking := JS.orString (opt initialData p_smoking) "Never";
     alcohol_intake := JS.orString (opt initialData p_alcohol_intake) "None";
     exercise_hours := JS.orNumber (opt initialData p_exercise_hours) 3;
     family_history := JS.orBool (opt initialData p_family_history) false;
     diabetes := JS.orBool (opt initialData p_diabetes) false;
     obesity := JS.orBool (opt initialData p_obesity) false;
     stress_level := JS.orNumber (opt initialData p_stress_level) 5;
     blood_sugar := JS.orNumber (opt initialData p_blood_sugar) 100;
     exercise_induced_angina := JS.orBool (opt initialData p_exercise_induced_angina) false;
     chest_pain_type := JS.orString (opt initialData p_chest_pain_type) "Asymptomatic" |}.

(** What [handleSubmit] does to the outside: the event, the component's
    own [isSubmitting] state, and the two callbacks of its props. *)
Inductive effect : Type :=
| PreventDefault
| SetIsSubmitting (b : bool)
| OnSubmit (data : HeartDiseaseInput)
| OnError (error : string).

(** The seven checks of the [try] block, in their order. *)
Definition validate (formData : HeartDiseaseInput) : JS.Exc unit :=
  JS.throwIf (JS.lt (age formData) 18 || JS.gt (age formData) 120)
    "Age must be between 18 and 120" ;;;
  JS.throwIf (JS.lt (cholesterol formData) 100 || JS.gt (cholesterol formData) 600)
    "Cholesterol must be between 100 and 600 mg/dL" ;;;
  JS.throwIf (JS.lt (blood_pressure formData) 60 || JS.gt (blood_pressure formData) 250)
    "Blood pressure must be between 60 and 250 mmHg" ;;;
  JS.throwIf (JS.lt (heart_rate formData) 40 || JS.gt (heart_rate formData) 200)
    "Heart rate must be between 40 and 200 bpm" ;;;
  JS.throwIf (JS.lt (stress_level formData) 1 || JS.gt (stress_level formData) 10)
    "Stress level must be between 1 and 10" ;;;
  JS.throwIf (JS.lt (blood_sugar formData) 70 || JS.gt (blood_sugar formData) 300)
    "Blood sugar must be between 70 and 300 mg/dL" ;;;
  JS.throwIf (JS.lt (exercise_hours formData) 0 || JS.gt (exercise_hours formData) 24)
    "Exercise hours must be between 0 and 24 per week".

(** [handleSubmit]: [try { checks; onSubmit(formData) } catch (error)
    { onError(...) } finally { setIsSubmitting(false) }]. The callback
    [onSubmit] is an [async] function of [App]: calling it returns a
    promise, which is not awaited here, and throws nothing. *)
Definition handleSubmit (formData : HeartDiseaseInput) : list effect :=
  [PreventDefault; SetIsSubmitting true]
  ++ match validate formData ;;; JS.ret [OnSubmit formData] with
     | inr done => done
     | inl error => [OnError (JS.messageOr "Validation failed" error)]
     end
  ++ [SetIsSubmitting false].

End ManualForm.

(* ===================================================================== *)
(** ** components/UploadCard.tsx *)
(* ===================================================================== *)

Module UploadCard.
Import Api.

(** The component's own state setters, the one request it issues and
    the two callbacks of its props. *)
Inductive effect : Type :=
| SetIsUploading (b : bool)
| SetUploadResult (r : option UploadResponse)
| Call (c : ApiCall)
| OnDataExtracted (data : HeartDiseaseInput)
| OnError (error : string).

(** [onDrop]; [uploadFile] is what [apiClient.uploadFile] settles to. *)
Definition onDrop (uploadFile : File -> JS.Exc UploadResponse) (acceptedFiles : list File)
  : list effect :=
  match acceptedFiles with
  | [] => []
  | file :: _ =>
      [SetIsUploading true; SetUploadResult None; Call (UploadFile file)]
      ++ match uploadFile file with
         | inr result =>
             SetUploadResult (Some result)
             :: match success result, extracted_data result with
                | true, Some data => [OnDataExtracted data]
                | _, _ => [OnError (message result)]
                end
         | inl error => [OnError (JS.messageOr "Upload failed" error)]
         end
      ++ [SetIsUploading false]
  end.

(** [handleSubmitExtracted], the button under the preview. *)
Definition handleSubmitExtracted (uploadResult : option UploadResponse) : list effect :=
  match uploadResult with
  | Some r =>
      match extracted_data r with
      | Some data => [OnDataExtracted data]
      | None => []
      end
  | None => []
  end.

End UploadCard.

(* ===================================================================== *)
(** ** App.tsx *)
(* ===================================================================== *)

Module App.
Import Api.

Inductive AppState : Type := upload | manual | result | loading.

(** The four [useState] cells of [App]. *)
Record State : Type := {
  currentState : AppState;
  prediction : option HeartDiseasePrediction;
  error : option string;
  extractedData : option HeartDiseaseInput
}.

Definition initialState : State :=
  {| currentState := upload; prediction := None; error := None; extractedData := None |}.

(** A handler is the sequence of state setters and requests it performs. *)
Inductive effect : Type :=
| SetCurrentState (s : AppState)
| SetPrediction (p : option HeartDiseasePrediction)
| SetError (e : option string)
| SetExtractedData (d : option HeartDiseaseInput)
| Call (c : ApiCall).

Definition step (st : State) (e : effect) : State :=
  match e with
  | SetCurrentState s =>
      {| currentState := s; prediction := prediction st;
         error := error st; extractedData := extractedData st |}
  | SetPrediction p =>
      {| currentState := currentState st; prediction := p;
         error := error st; extractedData := extractedData st |}
  | SetError e =>
      {| currentState := currentState st; prediction := prediction st;
         error := e; extractedData := extractedData st |}
  | SetExtractedData d =>
      {| currentState := currentState st; prediction := prediction st;
         error := error st; extractedData := d |}
  | Call _ => st
  end.

(** The state after a handler has run. *)
Definition run (st : State) (es : list effect) : State := fold_left step es st.

(** Every state the handler passes through, the final one included: a
    render shows one of these. *)
Fixpoint states (st : State) (es : list effect) : list State :=
  match es with
  | [] => []
  | e :: rest => step st e :: states (step st e) rest
  end.

Definition calls (es : list effect) : list ApiCall :=
  flat_map (fun e => match e with Call c => [c] | _ => [] end) es.

Definition handleDataExtracted (data : HeartDiseaseInput) : list effect :=
  [SetExtractedData (Some data); SetCurrentState manual; SetError None].

(** [handleFormSubmit]; [predict] is what [apiClient.predict] settles to. *)
Definition handleFormSubmit (predict : HeartDiseaseInput -> JS.Exc HeartDiseasePrediction)
  (data : HeartDiseaseInput) : list effect :=
  [SetCurrentState loading; SetError None; Call (Predict data)]
  ++ match predict data with
     | inr r => [SetPrediction (Some r); SetCurrentState result]
     | inl err => [SetError (Some (JS.messageOr "Prediction failed" err));
                   SetCurrentState manual]
     end.

Definition handleError (errorMessage : string) : list effect :=
  [SetError (Some errorMessage)].

Definition handleReset : list effect :=
  [SetCurrentState upload; SetPrediction None; SetError None; SetExtractedData None].

(** The props [renderContent] gives to [UploadCard] and [ManualForm]:
    each callback of a component runs the handler bound to it, a request
    of the component stays a request, and the component's own state is
    not the application's. *)
Definition uploadCardProps (e : UploadCard.effect) : list effect :=
  match e with
  | UploadCard.OnDataExtracted data => handleDataExtracted data
  | UploadCard.OnError msg => handleError msg
  | UploadCard.Call c => [Call c]
  | UploadCard.SetIsUploading _ | UploadCard.SetUploadResult _ => []
  end.

Definition manualFormProps (predict : HeartDiseaseInput -> JS.Exc HeartDiseasePrediction)
  (e : ManualForm.effect) : list effect :=
  match e with
  | ManualForm.OnSubmit data => handleFormSubmit predict data
  | ManualForm.OnError msg => handleError msg
  | ManualForm.PreventDefault | ManualForm.SetIsSubmitting _ => []
  end.

(** [onDrop] of the [UploadCard] that [renderContent] mounts, and
    [handleSubmit] of its [ManualForm], as effects on the application. *)
Definition uploadEffects (uploadFile : File -> JS.Exc UploadResponse)
  (acceptedFiles : list File) : list effect :=
  flat_map uploadCardProps (UploadCard.onDrop uploadFile acceptedFiles).

Definition submitEffects (predict : HeartDiseaseInput -> JS.Exc HeartDiseasePrediction)
  (formData : HeartDiseaseInput) : list effect :=
  flat_map (manualFormProps predict) (ManualForm.handleSubmit formData).

(** What [renderContent] puts on the page. *)
Inductive Content : Type :=
| UploadView
| ManualView (initialData : option ManualForm.PartialInput)
| LoadingView
| ResultView (p : HeartDiseasePrediction)
| NoContent.

Definition renderContent (st : State) : Content :=
  match currentState st with
  | upload => UploadView
  | manual => ManualView (option_map ManualForm.toPartial (extractedData st))
  | loading => LoadingView
  | result =>
      match prediction st with
      | Some p => ResultView p
      | None => NoContent
      end
  end.

(** [{error && (...)}]: the banner over the content. *)
Definition errorBanner (st : State) : option string :=
  match error st with
  | Some msg => if JS.truthyString msg then Some msg else None
  | None => None
  end.

End App.

(* ===================================================================== *)
(** ** The serving side of [/predict], from the specification *)
(* ===================================================================== *)

Module Backend.
Import Api.

(** Modelled from the spec: the errors of [predict] (section 6); the
    Python service that raises them is not among the sources. *)
Inductive PredictError : Type :=
| ValidationError (field : string)
| UnknownCategory
| ModelUnavailable.

(** Modelled from the spec: membership in a domain [lo, hi] of the
    Feature Schema (section 3); the schema module of the service is not
    among the sources. *)
Definition within (lo hi x : Q) : bool := Qle_bool lo x && Qle_bool x hi.

(** Modelled from the spec: membership in a fixed enumeration (section
    3); the schema module of the service is not among the sources. *)
Definition oneOf (values : list string) (x : string) : bool :=
  existsb (String.eqb x) values.

(** Modelled from the spec: a whole number, as the stress level has to
    be (section 3); the schema module of the service is not among the
    sources. *)
Definition isInteger (x : Q) : bool := (Qnum x mod Zpos (Qden x) =? 0)%Z.

(** Modelled from the spec: the domain check of the Feature Schema
    (section 3, and section 8 for an enumeration), field by field, with
    the first offending field named; the schema module of the service is
    not among the sources. *)
Definition checkSchema (s : HeartDiseaseInput) : option string :=
  if negb (within 18 120 (age s)) then Some "age"
  else if negb (oneOf gender_values (gender s)) then Some "gender"
  else if negb (within 100 600 (cholesterol s)) then Some "cholesterol"
  else if negb (within 60 250 (blood_pressure s)) then Some "blood_pressure"
  else if negb (within 40 200 (heart_rate s)) then Some "heart_rate"
  else if negb (oneOf smoking_values (smoking s)) then Some "smoking"
  else if negb (oneOf alcohol_intake_values (alcohol_intake s)) then Some "alcohol_intake"
  else if negb (within 0 24 (exercise_hours s)) then Some "exercise_hours"
  else if negb (within 1 10 (stress_level s) && isInteger (stress_level s))
       then Some "stress_level"
  else if negb (within 70 300 (blood_sugar s)) then Some "blood_sugar"
  else if negb (oneOf chest_pain_type_values (chest_pain_type s)) then Some "chest_pain_type"
  else None.

(** Modelled from the spec: the 15 features with their original input
    values, which each contributor carries (section 4.4); the explainer
    of the service is not among the sources. *)
Definition features (s : HeartDiseaseInput) : list (string * FeatureValue) :=
  [ ("age", NumberValue (age s));
    ("gender", StringValue (gender s));
    ("cholesterol", NumberValue (cholesterol s));
    ("blood_pressure", NumberValue (blood_pressure s));
    ("heart_rate", NumberValue (heart_rate s));
    ("smoking", StringValue (smoking s));
    ("alcohol_intake", StringValue (alcohol_intake s));
    ("exercise_hours", NumberValue (exercise_hours s));
    ("family_history", BooleanValue (family_history s));
    ("diabetes", BooleanValue (diabetes s));
    ("obesity", BooleanValue (obesity s));
    ("stress_level", NumberValue (stress_level s));
    ("blood_sugar", NumberValue (blood_sugar s));
    ("exercise_induced_angina", BooleanValue (exercise_induced_angina s));
    ("chest_pain_type", StringValue (chest_pain_type s)) ].

(** Modelled from the spec: the persisted, trained artifact (sections
    4.2 to 4.5), which is not among the sources: the preprocessor's
    vector, the risk model's score, the raw attribution of each feature
    in the order of [features], the version string and the guidance
    notes of each tier. *)
Record Artifact : Type := {
  transform : HeartDiseaseInput -> list Q;
  model : list Q -> Q;
  explain : list Q -> list Q;
  version : string;
  guidance : string -> list string
}.

(** Modelled from the spec: the sum of a set of importances (section
    3); the explainer of the service is not among the sources. *)
Definition total {A} (l : list (A * Q)) : Q :=
  fold_right (fun x acc => snd x + acc) 0 l.

(** Modelled from the spec: the normalization algorithm of section 4.4,
    whose Python source is not among the sources: absolute values of the
    raw attributions, exactly-zero contributions discarded, the
    surviving set scaled to sum to 100; when every attribution is zero,
    an equal share for each feature. *)
Definition normalize {A} (raw : list (A * Q)) : list (A * Q) :=
  let magnitudes := map (fun x => (fst x, Qabs (snd x))) raw in
  let surviving := filter (fun x => negb (Qeq_bool (snd x) 0)) magnitudes in
  match surviving with
  | [] => map (fun x => (fst x, 100 / inject_Z (Z.of_nat (List.length raw)))) raw
  | _ :: _ => map (fun x => (fst x, snd x * (100 / total surviving))) surviving
  end.

(** Modelled from the spec: the ranking of the contributors, largest
    importance first (sections 1 and 3: a ranked, ordered list); the
    explainer of the service is not among the sources. *)
Fixpoint place {A} (x : A * Q) (l : list (A * Q)) : list (A * Q) :=
  match l with
  | [] => [x]
  | y :: rest => if Qle_bool (snd y) (snd x) then x :: y :: rest else y :: place x rest
  end.

(** Modelled from the spec: see [place]. *)
Definition rank {A} (l : list (A * Q)) : list (A * Q) := fold_right place [] l.

(** Modelled from the spec: truncation to the top K after the
    normalization over the full set (section 4.4); the explainer of the
    service is not among the sources. *)
Definition topK {A} (K : nat) (raw : list (A * Q)) : list (A * Q) :=
  firstn K (rank (normalize raw)).

(** Modelled from the spec: the risk tiers of section 4.5, Low below
    0.33, Moderate below 0.67, High from there; the categorizer of the
    service is not among the sources. *)
Definition categorize (p : Q) : string :=
  if JS.lt p (33 # 100) then "Low"
  else if JS.lt p (67 # 100) then "Moderate"
  else "High".

(** Modelled from the spec: a contributor of the response, [{feature
    name, input value, importance percentage}] (section 3); the
    explainer of the service is not among the sources. *)
Definition contribution (x : (string * FeatureValue) * Q) : FeatureContribution :=
  {| feature := fst (fst x); value := snd (fst x); importance := snd x |}.

(** Modelled from the spec: [predict] (sections 2 and 6), whose Python
    source is not among the sources: the schema is checked, then scored,
    explained and categorized. *)
Definition predict (a : Artifact) (K : nat) (s : HeartDiseaseInput)
  : PredictError + HeartDiseasePrediction :=
  match checkSchema s with
  | Some field => inl (ValidationError field)
  | None =>
      let v := transform a s in
      let p := model a v in
      inr {| risk_score := p;
             risk_level := categorize p;
             top_contributors :=
               map contribution (topK K (combine (features s) (explain a v)));
             model_version := version a;
             notes := guidance a (categorize p) |}
  end.

(** The sum of the importances of a response. *)
Definition importanceSum (cs : list FeatureContribution) : Q :=
  fold_right (fun c acc => importance c + acc) 0 cs.

End Backend.

(* ===================================================================== *)
(** ** Vocabulary of the statements *)
(* ===================================================================== *)

(** The seven continuous fields that [handleSubmit] checks. *)
Inductive ContinuousField : Type :=
| Age | Cholesterol | BloodPressure | HeartRate | StressLevel | BloodSugar | ExerciseHours.

Definition allContinuous : list ContinuousField :=
  [Age; Cholesterol; BloodPressure; HeartRate; StressLevel; BloodSugar; ExerciseHours].

(** The key of the field in [HeartDiseaseInput]. *)
Definition fieldKey (f : ContinuousField) : string :=
  match f with
  | Age => "age"
  | Cholesterol => "cholesterol"
  | BloodPressure => "blood_pressure"
  | HeartRate => "heart_rate"
  | StressLevel => "stress_level"
  | BloodSugar => "blood_sugar"
  | ExerciseHours => "exercise_hours"
  end.

Definition fieldOf (f : ContinuousField) (d : Api.HeartDiseaseInput) : JS.number :=
  match f with
  | Age => Api.age d
  | Cholesterol => Api.cholesterol d
  | BloodPressure => Api.blood_pressure d
  | HeartRate => Api.heart_rate d
  | StressLevel => Api.stress_level d
  | BloodSugar => Api.blood_sugar d
  | ExerciseHours => Api.exercise_hours d
  end.

(** The domain of each field, as the Feature Schema gives it. *)
Definition lo (f : ContinuousField) : Q :=
  match f with
  | Age => 18 | Cholesterol => 100 | BloodPressure => 60 | HeartRate => 40
  | StressLevel => 1 | BloodSugar => 70 | ExerciseHours => 0
  end.

Definition hi (f : ContinuousField) : Q :=
  match f with
  | Age => 120 | Cholesterol => 600 | BloodPressure => 250 | HeartRate => 200
  | StressLevel => 10 | BloodSugar => 300 | ExerciseHours => 24
  end.

Definition inDomain (f : ContinuousField) (d : Api.HeartDiseaseInput) : Prop :=
  lo f <= fieldOf f d <= hi f.

Definition oneUnitOutside (f : ContinuousField) (d : Api.HeartDiseaseInput) : Prop :=
  fieldOf f d == lo f - 1 \/ fieldOf f d == hi f + 1.

Definition atBoundary (f : ContinuousField) (d : Api.HeartDiseaseInput) : Prop :=
  fieldOf f d == lo f \/ fieldOf f d == hi f.

(** A message refers to a field when it opens with the words of the
    field's key, whatever the case of the letters. *)
Fixpoint words (key : string) : string :=
  match key with
  | EmptyString => EmptyString
  | String c rest => String (if Ascii.eqb c "_" then " "%char else c) (words rest)
  end.

Definition refersTo (f : ContinuousField) (msg : string) : bool :=
  String.prefix (words (fieldKey f)) (JS.toLowerCase msg).

(** A form state with its four categorical fields replaced. *)
Definition withCategories (g s a c : string) (d : Api.HeartDiseaseInput)
  : Api.HeartDiseaseInput :=
  {| Api.age := Api.age d;
     Api.gender := g;
     Api.cholesterol := Api.cholesterol d;
     Api.blood_pressure := Api.blood_pressure d;
     Api.heart_rate := Api.heart_rate d;
     Api.smoking := s;
     Api.alcohol_intake := a;
     Api.exercise_hours := Api.exercise_hours d;
     Api.family_history := Api.family_history d;
     Api.diabetes := Api.diabetes d;
     Api.obesity := Api.obesity d;
     Api.stress_level := Api.stress_level d;
     Api.blood_sugar := Api.blood_sugar d;
     Api.exercise_induced_angina := Api.exercise_induced_angina d;
     Api.chest_pain_type := c |}.

(** A partial input with one field replaced. *)
Definition withExerciseHours (v : option JS.number) (d : ManualForm.PartialInput)
  : ManualForm.PartialInput :=
  {| ManualForm.p_age := ManualForm.p_age d;
     ManualForm.p_gender := ManualForm.p_gender d;
     ManualForm.p_cholesterol := ManualForm.p_cholesterol d;
     ManualForm.p_blood_pressure := ManualForm.p_blood_pressure d;
     ManualForm.p_heart_rate := ManualForm.p_heart_rate d;
     ManualForm.p_smoking := ManualForm.p_smoking d;
     ManualForm.p_alcohol_intake := ManualForm.p_alcohol_intake d;
     ManualForm.p_exercise_hours := v;
     ManualForm.p_family_history := ManualForm.p_family_history d;
     ManualForm.p_diabetes := ManualForm.p_diabetes d;
     ManualForm.p_obesity := ManualForm.p_obesity d;
     ManualForm.p_stress_level := ManualForm.p_stress_level d;
     ManualForm.p_blood_sugar := ManualForm.p_blood_sugar d;
     ManualForm.p_exercise_induced_angina := ManualForm.p_exercise_induced_angina d;
     ManualForm.p_chest_pain_type := ManualForm.p_chest_pain_type d |}.

(** The four boolean fields of the form. *)
Inductive BooleanField : Type :=
| FamilyHistory | Diabetes | Obesity | ExerciseInducedAngina.

Definition flagOf (f : BooleanField) (d : Api.HeartDiseaseInput) : bool :=
  match f with
  | FamilyHistory => Api.family_history d
  | Diabetes => Api.diabetes d
  | Obesity => Api.obesity d
  | ExerciseInducedAngina => Api.exercise_induced_angina d
  end.

Definition withFlag (f : BooleanField) (v : option bool) (d : ManualForm.PartialInput)
  : ManualForm.PartialInput :=
  let keep (g : BooleanField) (old : option bool) : option bool :=
    match f, g with
    | FamilyHistory, FamilyHistory | Diabetes, Diabetes
    | Obesity, Obesity | ExerciseInducedAngina, ExerciseInducedAngina => v
    | _, _ => old
    end in
  {| ManualForm.p_age := ManualForm.p_age d;
     ManualForm.p_gender := ManualForm.p_gender d;
     ManualForm.p_cholesterol := ManualForm.p_cholesterol d;
     ManualForm.p_blood_pressure := ManualForm.p_blood_pressure d;
     ManualForm.p_heart_rate := ManualForm.p_heart_rate d;
     ManualForm.p_smoking := ManualForm.p_smoking d;
     ManualForm.p_alcohol_intake := ManualForm.p_alcohol_intake d;
     ManualForm.p_exercise_hours := ManualForm.p_exercise_hours d;
     ManualForm.p_family_history := keep FamilyHistory (ManualForm.p_family_history d);
     ManualForm.p_diabetes := keep Diabetes (ManualForm.p_diabetes d);
     ManualForm.p_obesity := keep Obesity (ManualForm.p_obesity d);
     ManualForm.p_stress_level := ManualForm.p_stress_level d;
     ManualForm.p_blood_sugar := ManualForm.p_blood_sugar d;
     ManualForm.p_exercise_induced_angina :=
       keep ExerciseInducedAngina (ManualForm.p_exercise_induced_angina d);
     ManualForm.p_chest_pain_type := ManualForm.p_chest_pain_type d |}.

(** The hardcoded defaults of the form: what it starts from when no
    initial data is given. *)
Definition defaults : Api.HeartDiseaseInput := ManualForm.initialFormData None.

(** A form state like the defaults, with a gender outside the union. *)
Definition otherGender : Api.HeartDiseaseInput :=
  {| Api.age := 50;
     Api.gender := "Other";
     Api.cholesterol := 200;
     Api.blood_pressure := 120;
     Api.heart_rate := 72;
     Api.smoking := "Never";
     Api.alcohol_intake := "None";
     Api.exercise_hours := 3;
     Api.family_history := false;
     Api.diabetes := false;
     Api.obesity := false;
     Api.stress_level := 5;
     Api.blood_sugar := 100;
     Api.exercise_induced_angina := false;
     Api.chest_pain_type := "Asymptomatic" |}.

(** The defaults with one continuous field replaced. *)
Definition withField (f : ContinuousField) (v : JS.number) (d : Api.HeartDiseaseInput)
  : Api.HeartDiseaseInput :=
  let pick (g : ContinuousField) : JS.number :=
    match f, g with
    | Age, Age | Cholesterol, Cholesterol | BloodPressure, BloodPressure
    | HeartRate, HeartRate | StressLevel, StressLevel | BloodSugar, BloodSugar
    | ExerciseHours, ExerciseHours => v
    | _, _ => fieldOf g d
    end in
  {| Api.age := pick Age;
     Api.gender := Api.gender d;
     Api.cholesterol := pick Cholesterol;
     Api.blood_pressure := pick BloodPressure;
     Api.heart_rate := pick HeartRate;
     Api.smoking := Api.smoking d;
     Api.alcohol_intake := Api.alcohol_intake d;
     Api.exercise_hours := pick ExerciseHours;
     Api.family_history := Api.family_history d;
     Api.diabetes := Api.diabetes d;
     Api.obesity := Api.obesity d;
     Api.stress_level := pick StressLevel;
     Api.blood_sugar := pick BloodSugar;
     Api.exercise_induced_angina := Api.exercise_induced_angina d;
     Api.chest_pain_type := Api.chest_pain_type d |}.

(** Sample values for the examples. *)
Definition report : Api.File :=
  {| Api.file_name := "report.pdf"; Api.file_type := "application/pdf";
     Api.file_size := 2048 |}.

Definition extracted : Api.UploadResponse :=
  {| Api.success := true;
     Api.message := "Medical data extracted successfully";
     Api.extracted_data := Some otherGender;
     Api.confidence := Some (4 # 5) |}.

Definition unreadable : Api.UploadResponse :=
  {| Api.success := false;
     Api.message := "Could not extract data from file";
     Api.extracted_data := None;
     Api.confidence := None |}.

Definition networkError : JS.thrown := JS.ErrorObj "Network Error".

Definition lowRisk : Api.HeartDiseasePrediction :=
  {| Api.risk_score := 1 # 4;
     Api.risk_level := "Low";
     Api.top_contributors :=
       [ {| Api.feature := "Age"; Api.value := Api.NumberValue 50;
            Api.importance := 508 # 10 |} ];
     Api.model_version := "1.0.0";
     Api.notes := [] |}.

(** A state in which an earlier prediction is still stored. *)
Definition afterResult : App.State :=
  {| App.currentState := App.manual; App.prediction := Some lowRisk;
     App.error := None; App.extractedData := None |}.

(** The far end takes longer than [t] milliseconds, or never answers. *)
Definition exceeds (l : Api.Latency) (t : Z) : Prop :=
  match l with
  | Api.After ms => (t < ms)%Z
  | Api.Never => True
  end.

(** A stand-in for the trained artifact, for the examples: a constant
    score, and attributions that are negative, zero and positive. *)
Definition sampleArtifact : Backend.Artifact :=
  {| Backend.transform := fun s => [Api.age s; Api.cholesterol s];
     Backend.model := fun _ => 1 # 4;
     Backend.explain := fun _ =>
       [3; -(2); 0; 1 # 2; 0; 0; -(1 # 2); 0; 0; 0; 0; 4; 0; 0; 0];
     Backend.version := "1.0.0";
     Backend.guidance := fun _ => ["Maintain a healthy lifestyle."] |}.

(** The test of the normalization for a contribution that survives. *)
Definition nonZero {A} (x : A * Q) : bool := negb (Qeq_bool (snd x) 0).

(** The case labels of the three risk-level switches. *)
Definition tiers : list string := ["low"; "moderate"; "high"].

(* ===================================================================== *)
(** ** ManualForm.tsx: the inputs of the form *)
(* ===================================================================== *)

Module FormInputs.
Import Api.

Inductive CategoricalField : Type :=
| Gender | Smoking | AlcoholIntake | ChestPainType.

(** The value [parseInt(e.target.value)] hands to [||]: not a number,
    or an integer. (A digit string too long for a finite number is left
    out.) *)
Inductive Parsed : Type :=
| NaN
| Finite (n : Z).

(** [parseInt(e.target.value) || d]. *)
Definition orParsed (p : Parsed) (d : Z) : JS.number :=
  match p with
  | NaN => inject_Z d
  | Finite n => if (n =? 0)%Z then inject_Z d else inject_Z n
  end.

(** The fallback each number input writes after [||]. *)
Definition fallback (f : ContinuousField) : Z :=
  match f with
  | StressLevel => 1
  | _ => 0
  end.

(** A call [handleInputChange(field, value)], by the kind of its field. *)
Inductive Change : Type :=
| NumberChange (f : ContinuousField) (v : JS.number)
| CategoryChange (c : CategoricalField) (v : string)
| FlagChange (b : BooleanField) (v : bool).

(** The three kinds of [onChange] of the form: a number input, a
    select and a checkbox. *)
Definition onNumberInput (f : ContinuousField) (p : Parsed) : Change :=
  NumberChange f (orParsed p (fallback f)).
Definition onValueChange (c : CategoricalField) (v : string) : Change :=
  CategoryChange c v.
Definition onCheckedChange (b : BooleanField) (checked : bool) : Change :=
  FlagChange b checked.

(** [{ ...prev, [field]: value }]. *)
Definition handleInputChange (ch : Change) (prev : HeartDiseaseInput) : HeartDiseaseInput :=
  let num (g : ContinuousField) (old : JS.number) : JS.number :=
    match ch with
    | NumberChange f v =>
        match f, g with
        | Age, Age | Cholesterol, Cholesterol | BloodPressure, BloodPressure
        | HeartRate, HeartRate | StressLevel, StressLevel | BloodSugar, BloodSugar
        | ExerciseHours, ExerciseHours => v
        | _, _ => old
        end
    | _ => old
    end in
  let cat (g : CategoricalField) (old : string) : string :=
    match ch with
    | CategoryChange c v =>
        match c, g with
        | Gender, Gender | Smoking, Smoking | AlcoholIntake, AlcoholIntake
        | ChestPainType, ChestPainType => v
        | _, _ => old
        end
    | _ => old
    end in
  let flag (g : BooleanField) (old : bool) : bool :=
    match ch with
    | FlagChange b v =>
        match b, g with
        | FamilyHistory, FamilyHistory | Diabetes, Diabetes | Obesity, Obesity
        | ExerciseInducedAngina, ExerciseInducedAngina => v
        | _, _ => old
        end
    | _ => old
    end in
  {| age := num Age (age prev);
     gender := cat Gender (gender prev);
     cholesterol := num Cholesterol (cholesterol prev);
     blood_pressure := num BloodPressure (blood_pressure prev);
     heart_rate := num HeartRate (heart_rate prev);
     smoking := cat Smoking (smoking prev);
     alcohol_intake := cat AlcoholIntake (alcohol_intake prev);
     exercise_hours := num ExerciseHours (exercise_hours prev);
     family_history := flag FamilyHistory (family_history prev);
     diabetes := flag Diabetes (diabetes prev);
     obesity := flag Obesity (obesity prev);
     stress_level := num StressLevel (stress_level prev);
     blood_sugar := num BloodSugar (blood_sugar prev);
     exercise_induced_angina := flag ExerciseInducedAngina (exercise_induced_angina prev);
     chest_pain_type := cat ChestPainType (chest_pain_type prev) |}.

(** The key a change writes to. *)
Definition target (ch : Change) : string :=
  match ch with
  | NumberChange f _ => fieldKey f
  | CategoryChange Gender _ => "gender"
  | CategoryChange Smoking _ => "smoking"
  | CategoryChange AlcoholIntake _ => "alcohol_intake"
  | CategoryChange ChestPainType _ => "chest_pain_type"
  | FlagChange FamilyHistory _ => "family_history"
  | FlagChange Diabetes _ => "diabetes"
  | FlagChange Obesity _ => "obesity"
  | FlagChange ExerciseInducedAngina _ => "exercise_induced_angina"
  end.

(** The place of a field in the sequence of checks of [handleSubmit]. *)
Definition checkOrder (f : ContinuousField) : nat :=
  match f with
  | Age => 0 | Cholesterol => 1 | BloodPressure => 2 | HeartRate => 3
  | StressLevel => 4 | BloodSugar => 5 | ExerciseHours => 6
  end.

(** The field of a partial input. *)
Definition partialFieldOf (f : ContinuousField) (d : ManualForm.PartialInput)
  : option JS.number :=
  match f with
  | Age => ManualForm.p_age d
  | Cholesterol => ManualForm.p_cholesterol d
  | BloodPressure => ManualForm.p_blood_pressure d
  | HeartRate => ManualForm.p_heart_rate d
  | StressLevel => ManualForm.p_stress_level d
  | BloodSugar => ManualForm.p_blood_sugar d
  | ExerciseHours => ManualForm.p_exercise_hours d
  end.

Definition categoryOf (c : CategoricalField) (d : HeartDiseaseInput) : string :=
  match c with
  | Gender => gender d
  | Smoking => smoking d
  | AlcoholIntake => alcohol_intake d
  | ChestPainType => chest_pain_type d
  end.

End FormInputs.

(* ===================================================================== *)
(** ** ResultCard.tsx: the label of a contributor *)
(* ===================================================================== *)

Module ResultCardLabels.

(** [contributor.feature.replace(/_/g, ' ')]. *)
Fixpoint featureLabel (feature : string) : string :=
  match feature with
  | EmptyString => EmptyString
  | String c rest =>
      String (if Ascii.eqb c "_" then " "%char else c) (featureLabel rest)
  end.

Fixpoint occurs (c : ascii) (s : string) : bool :=
  match s with
  | EmptyString => false
  | String c' rest => Ascii.eqb c' c || occurs c rest
  end.

End ResultCardLabels.

(* ===================================================================== *)
(** ** The two halves of the asynchronous handlers *)
(* ===================================================================== *)

Module Async.
Import Api.

(** [onDrop] up to its [await], and from there on. *)
Definition onDropBefore (acceptedFiles : list File) : list UploadCard.effect :=
  match acceptedFiles with
  | [] => []
  | file :: _ =>
      [UploadCard.SetIsUploading true; UploadCard.SetUploadResult None;
       UploadCard.Call (UploadFile file)]
  end.

Definition onDropAfter (settled : JS.Exc UploadResponse) : list UploadCard.effect :=
  match settled with
  | inr result =>
      UploadCard.SetUploadResult (Some result)
      :: match success result, extracted_data result with
         | true, Some data => [UploadCard.OnDataExtracted data]
         | _, _ => [UploadCard.OnError (message result)]
         end
  | inl error => [UploadCard.OnError (JS.messageOr "Upload failed" error)]
  end
  ++ [UploadCard.SetIsUploading false].

(** [handleFormSubmit] up to its [await], and from there on. *)
Definition handleFormSubmitBefore (data : HeartDiseaseInput) : list App.effect :=
  [App.SetCurrentState App.loading; App.SetError None; App.Call (Predict data)].

Definition handleFormSubmitAfter (settled : JS.Exc HeartDiseasePrediction) : list App.effect :=
  match settled with
  | inr r => [App.SetPrediction (Some r); App.SetCurrentState App.result]
  | inl err => [App.SetError (Some (JS.messageOr "Prediction failed" err));
                App.SetCurrentState App.manual]
  end.

End Async.

(* ===================================================================== *)
(** ** A session: the application, its mounted form, its requests *)
(* ===================================================================== *)

Module Session.
Import Api App.

(** The application state, the [formData] of the [ManualForm] that is
    mounted (there is one exactly in the [manual] state), and the
    requests that have not settled yet. *)
Record Session : Type := {
  app : State;
  form : option HeartDiseaseInput;
  inFlight : list ApiCall
}.

Definition start : Session :=
  {| app := initialState; form := None; inFlight := [] |}.

(** What the user can do. The button under the preview of the upload
    card hands over the data of the last response, whatever it is. *)
Inductive UserEvent : Type :=
| DropFiles (acceptedFiles : list File)
| UseExtractedData (data : HeartDiseaseInput)
| EnterHealthData
| UploadInstead
| EditForm (change : FormInputs.Change)
| SubmitForm
| StartNewAssessment.

(** How a request settles: the far end decides. *)
Inductive Outcome : Type :=
| PredictSettled (settled : JS.Exc HeartDiseasePrediction)
| UploadSettled (settled : JS.Exc UploadResponse).

(** One turn of the event loop: a user event with the synchronous part
    of its handler, or the continuation of the [n]-th request in
    flight. *)
Inductive Label : Type :=
| User (e : UserEvent)
| Settle (n : nat) (o : Outcome).

Definition isManual (s : AppState) : bool :=
  match s with
  | manual => true
  | _ => false
  end.

(** The callbacks of the form, up to the [await] of [handleFormSubmit]. *)
Definition manualFormPropsBefore (e : ManualForm.effect) : list effect :=
  match e with
  | ManualForm.OnSubmit data => Async.handleFormSubmitBefore data
  | ManualForm.OnError msg => handleError msg
  | ManualForm.PreventDefault | ManualForm.SetIsSubmitting _ => []
  end.

(** The state setters of a turn are committed together, and the change
    of content is taken to be immediate (the exit animation of the old
    content is not modelled). The content is keyed by [currentState]: a form that stays mounted keeps its data, a
    form that is mounted anew starts from [initialData], and the form is
    gone in every other state. *)
Definition commit (s : Session) (es : list effect) (remaining : list ApiCall) : Session :=
  let st := run (app s) es in
  {| app := st;
     form :=
       if isManual (currentState st) then
         if isManual (currentState (app s)) then form s
         else Some (ManualForm.initialFormData
                      (option_map ManualForm.toPartial (extractedData st)))
       else None;
     inFlight := remaining ++ calls es |}.

Definition without {X} (n : nat) (l : list X) : list X := firstn n l ++ skipn (S n) l.

Definition next (s : Session) (l : Label) : Session :=
  match l with
  | User (DropFiles acceptedFiles) =>
      commit s (flat_map uploadCardProps (Async.onDropBefore acceptedFiles)) (inFlight s)
  | User (UseExtractedData data) =>
      commit s (handleDataExtracted data) (inFlight s)
  | User EnterHealthData => commit s [SetCurrentState manual] (inFlight s)
  | User UploadInstead => commit s [SetCurrentState upload] (inFlight s)
  | User (EditForm change) =>
      {| app := app s;
         form := option_map (FormInputs.handleInputChange change) (form s);
         inFlight := inFlight s |}
  | User SubmitForm =>
      match form s with
      | Some formData =>
          commit s (flat_map manualFormPropsBefore (ManualForm.handleSubmit formData))
                 (inFlight s)
      | None => s
      end
  | User StartNewAssessment => commit s handleReset (inFlight s)
  | Settle n o =>
      match nth_error (inFlight s) n, o with
      | Some (Predict _), PredictSettled settled =>
          commit s (Async.handleFormSubmitAfter settled) (without n (inFlight s))
      | Some (UploadFile _), UploadSettled settled =>
          commit s (flat_map uploadCardProps (Async.onDropAfter settled))
                 (without n (inFlight s))
      | _, _ => s
      end
  end.

(** The session after a sequence of turns. *)
Definition after (ls : list Label) : Session := fold_left next ls start.

Definition predictInFlight (c : ApiCall) : bool :=
  match c with
  | Predict _ => true
  | _ => false
  end.

End Session.

(* ===================================================================== *)
(** ** A submission end to end: the form, the client, the service *)
(* ===================================================================== *)

Module Service.
Import Api.

(** Modelled from the spec: what [apiClient.predict] settles to when the
    service behind [/predict] is the [predict] of sections 2 and 6,
    whose Python source is not among the sources. A failure of the
    service reaches the client as an error response, which axios turns
    into a rejected promise carrying an [Error]; its message, whatever
    it is for each kind of failure (section 7: an error kind and a safe
    message), is [describe]. *)
Definition served (describe : Backend.PredictError -> string)
  (a : Backend.Artifact) (K : nat) (inputData : HeartDiseaseInput)
  : JS.Exc HeartDiseasePrediction :=
  match Backend.predict a K inputData with
  | inl failure => inl (JS.ErrorObj (describe failure))
  | inr r => inr r
  end.

(** Some categorical field holds a value outside its union type. *)
Definition outsideEnumeration (d : HeartDiseaseInput) : Prop :=
  ~ In (gender d) gender_values
  \/ ~ In (smoking d) smoking_values
  \/ ~ In (alcohol_intake d) alcohol_intake_values
  \/ ~ In (chest_pain_type d) chest_pain_type_values.

(** The message of an error response, for the examples. *)
Definition statusMessage (failure : Backend.PredictError) : string :=
  match failure with
  | Backend.ValidationError _ => "Request failed with status code 422"
  | Backend.UnknownCategory => "Request failed with status code 400"
  | Backend.ModelUnavailable => "Request failed with status code 503"
  end.

End Service.

(** A response that fails and says nothing. *)
Definition silent : Api.UploadResponse :=
  {| Api.success := false;
     Api.message := "";
     Api.extracted_data := None;
     Api.confidence := None |}.

Lemma lowerChar_idem (c : ascii) : JS.lowerChar (JS.lowerChar c) = JS.lowerChar c.
Proof. destruct c as [[] [] [] [] [] [] [] []]; reflexivity. Qed.

Lemma toLowerCase_idem (s : string) :
  JS.toLowerCase (JS.toLowerCase s) = JS.toLowerCase s.
Proof.
  induction s as [|c s IH]; simpl; [reflexivity|].
  now rewrite lowerChar_idem, IH.
Qed.

(* ===================================================================== *)
(** ** Risk level look-ups (lib/utils.ts, ResultCard.tsx) *)
(* ===================================================================== *)

Section RiskLevel.

(** The three comparisons of a [switch] over the tiers, decided at once. *)
Lemma tier_cases (l : string) :
  l = "low" \/ l = "moderate" \/ l = "high" \/ ~ In l tiers.
Proof.
  destruct (String.eqb_spec l "low") as [->|H1]; [now left|].
  destruct (String.eqb_spec l "moderate") as [->|H2]; [now right; left|].
  destruct (String.eqb_spec l "high") as [->|H3]; [now right; right; left|].
  right; right; right. simpl. intros [E|[E|[E|[]]]]; congruence.
Qed.

Lemma outside_tiers (l : string) :
  ~ In l tiers -> (l =? "low") = false /\ (l =? "moderate") = false /\ (l =? "high") = false.
Proof.
  intros H. repeat split; apply String.eqb_neq; intros ->; apply H; simpl; tauto.
Qed.

Example getRiskColor_Low : Utils.getRiskColor "Low" = "text-green-600 bg-green-50".
Proof. reflexivity. Qed.

Example getRiskColor_unknown : Utils.getRiskColor "unknown" = "text-gray-600 bg-gray-50".
Proof. reflexivity. Qed.

Example getRiskDescription_MODERATE :
  ResultCard.getRiskDescription "MODERATE" = nth 1 ResultCard.catalog "".
Proof. reflexivity. Qed.

(** C8. For every risk level string, [getRiskDescription] returns a text
    of the fixed catalog, never the empty string: a level that
    lower-cases to "low", "moderate" or "high" gets the description of
    that tier, and every other level gets "Risk assessment completed.". *)
Theorem getRiskDescription_static_catalog (level : string) :
  In (ResultCard.getRiskDescription level) ResultCard.catalog
  /\ ResultCard.getRiskDescription level <> ""
  /\ (JS.toLowerCase level = "low" ->
      ResultCard.getRiskDescription level =
      "Your risk of heart disease is relatively low. Continue maintaining a healthy lifestyle.")
  /\ (JS.toLowerCase level = "moderate" ->
      ResultCard.getRiskDescription level =
      "Your risk of heart disease is moderate. Consider lifestyle changes and regular health checkups.")
  /\ (JS.toLowerCase level = "high" ->
      ResultCard.getRiskDescription level =
      "Your risk of heart disease is high. Please consult a healthcare professional immediately.")
  /\ (~ In (JS.toLowerCase level) tiers ->
      ResultCard.getRiskDescription level = "Risk assessment completed.").
Proof.
  unfold ResultCard.getRiskDescription; cbv zeta.
  destruct (tier_cases (JS.toLowerCase level)) as [E|[E|[E|E]]].
  1-3: rewrite E; cbn; repeat split; try discriminate; try tauto;
       intros H; exfalso; apply H; cbn; tauto.
  destruct (outside_tiers _ E) as (E1 & E2 & E3).
  rewrite E1, E2, E3. cbn.
  repeat split; try discriminate; try tauto;
    intros H; exfalso; apply E; rewrite H; cbn; tauto.
Qed.

(** Witness for C8: a level outside the three tiers, and "HIGH" in capitals. *)
Lemma getRiskDescription_static_catalog_witness :
  ResultCard.getRiskDescription "Critical" = "Risk assessment completed."
  /\ ResultCard.getRiskDescription "HIGH" =
     "Your risk of heart disease is high. Please consult a healthcare professional immediately.".
Proof.
  split.
  - apply (getRiskDescription_static_catalog "Critical").
    cbn. intros [E|[E|[E|[]]]]; discriminate E.
  - apply (getRiskDescription_static_catalog "HIGH"). reflexivity.
Defined.

(** C10. [getRiskColor] and [getRiskIcon] give the same answer for a
    string and for its lower-case form; a string whose lower-case form
    is none of "low", "moderate", "high" gets the grey classes and the
    question mark; and no answer is the empty string. *)
Theorem getRisk_case_insensitive_total (s : string) :
  Utils.getRiskColor s = Utils.getRiskColor (JS.toLowerCase s)
  /\ Utils.getRiskIcon s = Utils.getRiskIcon (JS.toLowerCase s)
  /\ (~ In (JS.toLowerCase s) tiers ->
      Utils.getRiskColor s = "text-gray-600 bg-gray-50" /\ Utils.getRiskIcon s = "❓")
  /\ Utils.getRiskColor s <> ""
  /\ Utils.getRiskIcon s <> "".
Proof.
  unfold Utils.getRiskColor, Utils.getRiskIcon; cbv zeta.
  rewrite toLowerCase_idem.
  split; [reflexivity|]. split; [reflexivity|].
  destruct (tier_cases (JS.toLowerCase s)) as [E|[E|[E|E]]].
  1-3: rewrite E; cbn; split; [|split; discriminate];
       intros H; exfalso; apply H; cbn; tauto.
  destruct (outside_tiers _ E) as (E1 & E2 & E3).
  rewrite E1, E2, E3. split; [intros _; split; reflexivity|split; discriminate].
Qed.

(** Witness for C10: a level outside the three tiers. *)
Lemma getRisk_case_insensitive_total_witness :
  Utils.getRiskColor "Severe" = "text-gray-600 bg-gray-50"
  /\ Utils.getRiskIcon "Severe" = "❓".
Proof.
  apply (getRisk_case_insensitive_total "Severe").
  cbn. intros [E|[E|[E|[]]]]; discriminate E.
Defined.

End RiskLevel.

(* ===================================================================== *)
(** ** The API client (lib/api.ts) *)
(* ===================================================================== *)

Section Client.
Import Api.

(** The config of a call never sets a timeout of its own, so the one of
    the instance stands. *)
Lemma request_timeout (VITE_API_URL : option string) (call : ApiCall) :
  timeout (config (request VITE_API_URL call)) = Some 30000%Z.
Proof. destruct call; reflexivity. Qed.

Example request_upload_headers :
  headers (config (request None (UploadFile report))) =
  [("Content-Type", "multipart/form-data")].
Proof. reflexivity. Qed.

Example dispatch_without_timeout_hangs :
  dispatch (A := unit) {| method := GET; url := "/health"; data := NoBody;
                          config := create noConfig |} Never (inr tt) = Pending.
Proof. reflexivity. Qed.

(** C7. Each of the six client methods sends its request with a timeout
    of 30000 ms; so, under the timeout contract of axios, no call stays
    pending, and a call whose answer takes longer than that, or never
    comes, is rejected with the timeout error. *)
Theorem every_request_has_deadline
  (VITE_API_URL : option string) (call : ApiCall)
  (A : Type) (l : Latency) (answer : JS.Exc A) :
  timeout (config (request VITE_API_URL call)) = Some 30000%Z
  /\ dispatch (request VITE_API_URL call) l answer <> Pending
  /\ (exceeds l 30000 ->
      dispatch (request VITE_API_URL call) l answer
      = Rejected (JS.ErrorObj "timeout of 30000ms exceeded")).
Proof.
  split; [apply request_timeout|].
  unfold dispatch. rewrite request_timeout.
  change (0 <? 30000)%Z with true. cbv iota.
  destruct l as [ms|]; cbn [exceeds].
  - destruct (Z.leb_spec ms 30000) as [Hle|Hgt].
    + split; [destruct answer; discriminate|]. intros H. lia.
    + split; [discriminate|]. intros _. reflexivity.
  - split; [discriminate|]. intros _. reflexivity.
Qed.

(** Witness for C7: an upload whose answer takes 45 seconds. *)
Lemma every_request_has_deadline_witness :
  dispatch (request None (UploadFile report)) (After 45000) (inr extracted)
  = Rejected (JS.ErrorObj "timeout of 30000ms exceeded").
Proof.
  apply (every_request_has_deadline None (UploadFile report) UploadResponse
           (After 45000) (inr extracted)).
  cbn. lia.
Defined.

End Client.

(* ===================================================================== *)
(** ** The manual form (ManualForm.tsx) *)
(* ===================================================================== *)

Section Form.
Import ManualForm.

Lemma lt_true (x y : Q) : x < y -> JS.lt x y = true.
Proof.
  intros H. unfold JS.lt. apply negb_true_iff.
  destruct (Qle_bool y x) eqn:E; [|reflexivity].
  apply Qle_bool_iff in E. exfalso. lra.
Qed.

Lemma lt_false (x y : Q) : y <= x -> JS.lt x y = false.
Proof.
  intros H. unfold JS.lt. apply negb_false_iff. now apply Qle_bool_iff.
Qed.

(** One range check of [validate], inside and outside the range. *)
Lemma check_inside (l h x : Q) : l <= x <= h -> JS.lt x l || JS.gt x h = false.
Proof.
  intros [H1 H2]. unfold JS.gt. now rewrite !lt_false.
Qed.

Lemma check_outside (l h x : Q) : x < l \/ h < x -> JS.lt x l || JS.gt x h = true.
Proof.
  intros [H|H]; unfold JS.gt; rewrite (lt_true _ _ H); [reflexivity|apply orb_true_r].
Qed.

Lemma outside_by_one (f : ContinuousField) (d : Api.HeartDiseaseInput) :
  oneUnitOutside f d -> fieldOf f d < lo f \/ hi f < fieldOf f d.
Proof.
  unfold oneUnitOutside. intros [H|H]; [left|right]; lra.
Qed.

Lemma boundary_inDomain (f : ContinuousField) (d : Api.HeartDiseaseInput) :
  atBoundary f d -> inDomain f d.
Proof.
  unfold atBoundary, inDomain. destruct f; cbn; intros [H|H]; lra.
Qed.

(** Rewrites the check of field [f] in the goal, from a proof [H] that
    the field is inside its range. *)
Ltac pass_check H :=
  let E := fresh "E" in
  pose proof (check_inside _ _ _ H) as E;
  cbv beta iota delta [lo hi fieldOf] in E; rewrite E; clear E.

(** The same for a field outside its range. *)
Ltac fail_check H :=
  let E := fresh "E" in
  pose proof (check_outside _ _ _ H) as E;
  cbv beta iota delta [lo hi fieldOf] in E; rewrite E; clear E.

Lemma validate_inDomain (formData : Api.HeartDiseaseInput) :
  (forall f, inDomain f formData) -> validate formData = inr tt.
Proof.
  intros H. unfold validate.
  pass_check (H Age). pass_check (H Cholesterol). pass_check (H BloodPressure).
  pass_check (H HeartRate). pass_check (H StressLevel). pass_check (H BloodSugar).
  pass_check (H ExerciseHours). reflexivity.
Qed.

Lemma handleSubmit_inDomain (formData : Api.HeartDiseaseInput) :
  (forall f, inDomain f formData) ->
  handleSubmit formData =
  [PreventDefault; SetIsSubmitting true; OnSubmit formData; SetIsSubmitting false].
Proof.
  intros H. unfold handleSubmit. now rewrite (validate_inDomain _ H).
Qed.

(** Settles the check of field [g]: it passes when [g] is not the
    offending field, and fails when it is. *)
Ltac settle_check Hin Hout formData g :=
  first [ let E := fresh "E" in
          assert (E : inDomain g formData) by (apply Hin; discriminate);
          pass_check E; clear E
        | fail_check Hout ].

(** The first check that fails decides the message. *)
Lemma validate_outside (formData : Api.HeartDiseaseInput) (f : ContinuousField) :
  (fieldOf f formData < lo f \/ hi f < fieldOf f formData) ->
  (forall g, g <> f -> inDomain g formData) ->
  exists msg, validate formData = inl (JS.ErrorObj msg) /\ refersTo f msg = true.
Proof.
  intros Hout Hin. unfold validate.
  destruct f;
    settle_check Hin Hout formData Age;
    settle_check Hin Hout formData Cholesterol;
    settle_check Hin Hout formData BloodPressure;
    settle_check Hin Hout formData HeartRate;
    settle_check Hin Hout formData StressLevel;
    settle_check Hin Hout formData BloodSugar;
    settle_check Hin Hout formData ExerciseHours;
    cbn; eexists; split; reflexivity.
Qed.

Example validate_age_17 :
  validate (withField Age 17 defaults) = inl (JS.ErrorObj "Age must be between 18 and 120").
Proof. reflexivity. Qed.

Example validate_exercise_25 :
  handleSubmit (withField ExerciseHours 25 defaults) =
  [PreventDefault; SetIsSubmitting true;
   OnError "Exercise hours must be between 0 and 24 per week"; SetIsSubmitting false].
Proof. reflexivity. Qed.

Example refersTo_blood_pressure :
  refersTo BloodPressure "Blood pressure must be between 60 and 250 mmHg" = true.
Proof. reflexivity. Qed.

(** C2. A form state in which one continuous field lies one unit outside
    its domain, the other six inside theirs, is not submitted:
    [handleSubmit] reports one error, whose message refers to that
    field, and calls [onSubmit] with nothing, neither the value nor a
    clamped one. *)
Theorem handleSubmit_rejects_one_unit_outside
  (formData : Api.HeartDiseaseInput) (f : ContinuousField) :
  oneUnitOutside f formData ->
  (forall g, g <> f -> inDomain g formData) ->
  exists msg,
    handleSubmit formData =
      [PreventDefault; SetIsSubmitting true; OnError msg; SetIsSubmitting false]
    /\ refersTo f msg = true
    /\ forall data, ~ In (OnSubmit data) (handleSubmit formData).
Proof.
  intros Hout Hin.
  destruct (validate_outside formData f (outside_by_one _ _ Hout) Hin) as (msg & Hv & Hr).
  exists msg. unfold handleSubmit. rewrite Hv. cbn.
  repeat split; [assumption|].
  intros data [E|[E|[E|[E|[]]]]]; discriminate E.
Qed.

(** Witness for C2: the defaults with a stress level of 11. *)
Lemma handleSubmit_rejects_one_unit_outside_witness :
  exists msg,
    handleSubmit (withField StressLevel 11 defaults) =
      [PreventDefault; SetIsSubmitting true; OnError msg; SetIsSubmitting false]
    /\ refersTo StressLevel msg = true
    /\ forall data, ~ In (OnSubmit data) (handleSubmit (withField StressLevel 11 defaults)).
Proof.
  apply (handleSubmit_rejects_one_unit_outside (withField StressLevel 11 defaults) StressLevel).
  - right. reflexivity.
  - intros g Hg. destruct g; try (exfalso; apply Hg; reflexivity);
      unfold inDomain; cbn; lra.
Defined.

(** C3. A form state in which every continuous field sits on a bound of
    its domain is submitted as it is: [handleSubmit] calls [onSubmit]
    with the form data, and reports no error. *)
Theorem handleSubmit_accepts_boundaries (formData : Api.HeartDiseaseInput) :
  (forall f, atBoundary f formData) ->
  handleSubmit formData =
  [PreventDefault; SetIsSubmitting true; OnSubmit formData; SetIsSubmitting false].
Proof.
  intros H. apply handleSubmit_inDomain. intros f. apply boundary_inDomain, H.
Qed.

(** Witness for C3: every field on its lower bound, but the age of 120. *)
Lemma handleSubmit_accepts_boundaries_witness :
  handleSubmit
    (withField Age 120 (withField Cholesterol 100 (withField BloodPressure 60
      (withField HeartRate 40 (withField StressLevel 1 (withField BloodSugar 70
        (withField ExerciseHours 0 defaults))))))) =
  [PreventDefault; SetIsSubmitting true;
   OnSubmit
     (withField Age 120 (withField Cholesterol 100 (withField BloodPressure 60
       (withField HeartRate 40 (withField StressLevel 1 (withField BloodSugar 70
         (withField ExerciseHours 0 defaults)))))));
   SetIsSubmitting false].
Proof.
  apply handleSubmit_accepts_boundaries.
  intros f. destruct f; unfold atBoundary; cbn;
    first [left; reflexivity | right; reflexivity].
Defined.

(** The gender "Other" can reach the form state: an upload response is
    not checked against the union type at run time. *)
Example otherGender_reachable :
  initialFormData (Some (toPartial otherGender)) = otherGender.
Proof. reflexivity. Qed.

(** The form itself lets the gender "Other" through: it is outside
    {Male, Female}, and [handleSubmit] reports no error and calls
    [onSubmit] with the data. *)
Lemma handleSubmit_accepts_unknown_gender :
  ~ In (Api.gender otherGender) Api.gender_values
  /\ handleSubmit otherGender =
     [PreventDefault; SetIsSubmitting true; OnSubmit otherGender; SetIsSubmitting false]
  /\ forall msg, ~ In (OnError msg) (handleSubmit otherGender).
Proof.
  split; [|split].
  - cbn. intros [E|[E|[]]]; discriminate E.
  - reflexivity.
  - intros msg. cbn. intros [E|[E|[E|[E|[]]]]]; discriminate E.
Qed.

(** [handleSubmit] checks the seven continuous ranges and
    nothing else: whatever strings the four categorical fields hold,
    inside their enumerations or not, the outcome of the checks is the
    same, and when the continuous fields are inside their ranges
    [onSubmit] is called with the data as it is. *)
Theorem handleSubmit_ignores_categories
  (formData : Api.HeartDiseaseInput) (g s a c : string) :
  (forall f, inDomain f formData) ->
  validate (withCategories g s a c formData) = validate formData
  /\ handleSubmit (withCategories g s a c formData) =
     [PreventDefault; SetIsSubmitting true;
      OnSubmit (withCategories g s a c formData); SetIsSubmitting false].
Proof.
  intros H. split; [reflexivity|].
  apply handleSubmit_inDomain. intros f. specialize (H f).
  destruct f; exact H.
Qed.

(** An instance: four values outside the enumerations. *)
Lemma handleSubmit_ignores_categories_witness :
  validate (withCategories "Other" "Sometimes" "Lots" "Mild" defaults) = validate defaults
  /\ handleSubmit (withCategories "Other" "Sometimes" "Lots" "Mild" defaults) =
     [PreventDefault; SetIsSubmitting true;
      OnSubmit (withCategories "Other" "Sometimes" "Lots" "Mild" defaults);
      SetIsSubmitting false].
Proof.
  apply handleSubmit_ignores_categories.
  intros f. destruct f; unfold inDomain; cbn; lra.
Defined.

Example initialFormData_zero_hours :
  Api.exercise_hours
    (initialFormData (Some (withExerciseHours (Some 0) (toPartial defaults)))) = 3.
Proof. reflexivity. Qed.

Example initialFormData_two_hours :
  Api.exercise_hours
    (initialFormData (Some (withExerciseHours (Some 2) (toPartial defaults)))) = 2.
Proof. reflexivity. Qed.

(** C9. An extracted value that is falsy, though valid, does not reach
    the form: with [exercise_hours = 0] the form starts from its default
    of 3, which is not 0, and with one of the four flags [false] it
    starts from the default of that flag (which is [false]); in each
    case the form starts exactly as it does when the field is missing. *)
Theorem initialFormData_drops_falsy (d : PartialInput) (b : BooleanField) :
  Api.exercise_hours (initialFormData (Some (withExerciseHours (Some 0) d))) = 3
  /\ ~ Api.exercise_hours (initialFormData (Some (withExerciseHours (Some 0) d))) == 0
  /\ Api.exercise_hours (initialFormData (Some (withExerciseHours (Some 0) d)))
     = Api.exercise_hours defaults
  /\ initialFormData (Some (withExerciseHours (Some 0) d))
     = initialFormData (Some (withExerciseHours None d))
  /\ flagOf b (initialFormData (Some (withFlag b (Some false) d))) = flagOf b defaults
  /\ initialFormData (Some (withFlag b (Some false) d))
     = initialFormData (Some (withFlag b None d)).
Proof.
  repeat split.
  - cbn. intros H. discriminate H.
  - destruct b; reflexivity.
  - destruct b; reflexivity.
Qed.

End Form.

(* ===================================================================== *)
(** ** The application state (App.tsx, UploadCard.tsx) *)
(* ===================================================================== *)

Section Application.
Import Api App.

Variable predict : HeartDiseaseInput -> JS.Exc HeartDiseasePrediction.
Variable uploadFile : File -> JS.Exc UploadResponse.

(** The form hands its data to [handleFormSubmit]. *)
Lemma submitEffects_inDomain (formData : HeartDiseaseInput) :
  (forall f, inDomain f formData) ->
  submitEffects predict formData = handleFormSubmit predict formData.
Proof.
  intros H. unfold submitEffects. rewrite (handleSubmit_inDomain _ H). cbn.
  now rewrite app_nil_r.
Qed.

Example handleFormSubmit_success :
  run initialState (handleFormSubmit (fun _ => inr lowRisk) defaults) =
  {| currentState := result; prediction := Some lowRisk;
     error := None; extractedData := None |}.
Proof. reflexivity. Qed.

Example handleFormSubmit_rejected :
  run afterResult (handleFormSubmit (fun _ => inl JS.NonError) defaults) =
  {| currentState := manual; prediction := Some lowRisk;
     error := Some "Prediction failed"; extractedData := None |}.
Proof. reflexivity. Qed.

(** C5. When the promise of [apiClient.predict] rejects,
    [handleFormSubmit] leaves the stored prediction and the extracted
    data as they were, stores the error message, and ends in the
    [manual] state, whose content is the form; no state it passes
    through shows a result or stores another prediction, and it issues
    the one request, with no second attempt. *)
Theorem handleFormSubmit_failure
  (data : HeartDiseaseInput) (st : State) (err : JS.thrown) :
  predict data = inl err ->
  run st (handleFormSubmit predict data) =
    {| currentState := manual;
       prediction := prediction st;
       error := Some (JS.messageOr "Prediction failed" err);
       extractedData := extractedData st |}
  /\ renderContent (run st (handleFormSubmit predict data)) =
     ManualView (option_map ManualForm.toPartial (extractedData st))
  /\ Forall (fun s => prediction s = prediction st
                      /\ forall p, renderContent s <> ResultView p)
            (states st (handleFormSubmit predict data))
  /\ calls (handleFormSubmit predict data) = [Predict data].
Proof.
  intros H. unfold handleFormSubmit. rewrite H. cbn.
  repeat split; repeat constructor; cbn; try reflexivity; intros p E; discriminate E.
Qed.

Example uploadEffects_extracted :
  uploadEffects (fun _ => inr extracted) [report] =
  [Call (UploadFile report); SetExtractedData (Some otherGender);
   SetCurrentState manual; SetError None].
Proof. reflexivity. Qed.

Example uploadEffects_unreadable :
  run initialState (uploadEffects (fun _ => inr unreadable) [report]) =
  {| currentState := upload; prediction := None;
     error := Some "Could not extract data from file"; extractedData := None |}.
Proof. reflexivity. Qed.

Example uploadEffects_rejected :
  errorBanner (run initialState (uploadEffects (fun _ => inl JS.NonError) [report])) =
  Some "Upload failed".
Proof. reflexivity. Qed.

Example uploadEffects_no_file : uploadEffects (fun _ => inr extracted) [] = [].
Proof. reflexivity. Qed.

(** C6. An upload never yields a prediction by itself. The one request
    of [onDrop] is the upload, the button under the preview issues none,
    and the stored prediction stays as it was. A response with [success] and extracted data puts that data in
    [extractedData], clears the error and moves to the [manual] state,
    whose form receives the data as its initial data; any other response
    stores its message as the error and changes nothing else. *)
Theorem upload_fills_form_only
  (file : File) (others : list File) (resp : UploadResponse) (st : State) :
  uploadFile file = inr resp ->
  calls (uploadEffects uploadFile (file :: others)) = [UploadFile file]
  /\ calls (flat_map uploadCardProps (UploadCard.handleSubmitExtracted (Some resp))) = []
  /\ Forall (fun s => prediction s = prediction st)
            (states st (uploadEffects uploadFile (file :: others)))
  /\ match success resp, extracted_data resp with
     | true, Some data =>
         run st (uploadEffects uploadFile (file :: others)) =
           {| currentState := manual; prediction := prediction st;
              error := None; extractedData := Some data |}
         /\ renderContent (run st (uploadEffects uploadFile (file :: others))) =
            ManualView (Some (ManualForm.toPartial data))
     | _, _ =>
         run st (uploadEffects uploadFile (file :: others)) =
           {| currentState := currentState st; prediction := prediction st;
              error := Some (message resp); extractedData := extractedData st |}
     end.
Proof.
  intros H. unfold uploadEffects, UploadCard.onDrop, UploadCard.handleSubmitExtracted.
  rewrite H.
  destruct (success resp), (extracted_data resp) as [data|]; cbn;
    repeat split; repeat constructor.
Qed.

End Application.

(* ===================================================================== *)
(** ** Runs of the handlers on the sample values *)
(* ===================================================================== *)

Section Runs.
Import Api App.

(** Witness for C5: a network error while an earlier prediction is stored. *)
Lemma handleFormSubmit_failure_witness :
  run afterResult (handleFormSubmit (fun _ => inl networkError) defaults) =
    {| currentState := manual;
       prediction := Some lowRisk;
       error := Some "Network Error";
       extractedData := None |}
  /\ calls (handleFormSubmit (fun _ => inl networkError) defaults) = [Predict defaults].
Proof.
  destruct (handleFormSubmit_failure (fun _ => inl networkError) defaults afterResult
              networkError eq_refl) as (H1 & _ & _ & H4).
  exact (conj H1 H4).
Defined.

(** Witness for C6: a response with extracted data, from the start state. *)
Lemma upload_fills_form_only_witness :
  run initialState (uploadEffects (fun _ => inr extracted) [report]) =
    {| currentState := manual; prediction := None;
       error := None; extractedData := Some otherGender |}
  /\ renderContent (run initialState (uploadEffects (fun _ => inr extracted) [report])) =
     ManualView (Some (ManualForm.toPartial otherGender)).
Proof.
  exact (proj2 (proj2 (proj2 (upload_fills_form_only (fun _ => inr extracted)
                                report [] extracted initialState eq_refl)))).
Defined.

End Runs.

(* ===================================================================== *)
(** ** The explainer's normalization, as specified *)
(* ===================================================================== *)

Section Normalization.
Import Api Backend.

Context {A : Type}.
Implicit Types (l raw : list (A * Q)) (x : A * Q).

Lemma total_cons x l : total (x :: l) = snd x + total l.
Proof. reflexivity. Qed.

Lemma total_scale (c : Q) l :
  total (map (fun x => (fst x, snd x * c)) l) == total l * c.
Proof.
  induction l as [|x l IH]; [cbn; ring|].
  cbn [map]. rewrite !total_cons, IH. cbn [snd]. ring.
Qed.

Lemma total_const (c : Q) l :
  total (map (fun x => (fst x, c)) l) == inject_Z (Z.of_nat (List.length l)) * c.
Proof.
  induction l as [|x l IH]; [cbn; ring|].
  cbn [map List.length]. rewrite total_cons, IH. cbn [snd].
  rewrite Nat2Z.inj_succ, <- Z.add_1_r, inject_Z_plus. ring.
Qed.

Lemma total_place x l : total (place x l) == snd x + total l.
Proof.
  induction l as [|y l IH]; [reflexivity|].
  cbn [place]. destruct (Qle_bool (snd y) (snd x)); [reflexivity|].
  rewrite !total_cons, IH. ring.
Qed.

Lemma total_rank l : total (rank l) == total l.
Proof.
  induction l as [|x l IH]; [reflexivity|].
  change (rank (x :: l)) with (place x (rank l)).
  rewrite total_place, total_cons, IH. reflexivity.
Qed.

Lemma place_perm x l : Permutation (place x l) (x :: l).
Proof.
  induction l as [|y l IH]; cbn; [reflexivity|].
  destruct (Qle_bool (snd y) (snd x)); [reflexivity|].
  rewrite IH. apply perm_swap.
Qed.

Lemma rank_perm l : Permutation (rank l) l.
Proof.
  induction l as [|x l IH]; cbn; [constructor|].
  fold (rank l). rewrite place_perm. now constructor.
Qed.

Lemma rank_length l : List.length (rank l) = List.length l.
Proof. apply Permutation_length, rank_perm. Qed.

(** What survives the filter is strictly positive. *)
Lemma surviving_positive raw :
  Forall (fun x => 0 < snd x)
         (filter (fun x => negb (Qeq_bool (snd x) 0))
                 (map (fun x => (fst x, Qabs (snd x))) raw)).
Proof.
  induction raw as [|x raw IH]; cbn; [constructor|].
  destruct (Qeq_bool (Qabs (snd x)) 0) eqn:E; cbn; [exact IH|].
  constructor; [|exact IH]. cbn.
  apply Qeq_bool_neq in E.
  destruct (Qle_lt_or_eq _ _ (Qabs_nonneg (snd x))) as [H|H]; [exact H|].
  exfalso. apply E. symmetry. exact H.
Qed.

Lemma total_positive l :
  l <> [] -> Forall (fun x => 0 < snd x) l -> 0 < total l.
Proof.
  intros Hne H. induction H as [|x l Hx Hl IH]; [congruence|].
  rewrite total_cons. destruct l as [|y l].
  - cbn. lra.
  - assert (0 < total (y :: l)) by (apply IH; discriminate). lra.
Qed.

(** The absolute value of a rational is zero exactly when it is. *)
Lemma Qeq_bool_Qabs (q : Q) : Qeq_bool (Qabs q) 0 = Qeq_bool q 0.
Proof. destruct q as [[|n|n] d]; reflexivity. Qed.

Lemma normalize_total raw : raw <> [] -> total (normalize raw) == 100.
Proof.
  intros Hne. unfold normalize. cbv zeta.
  pose proof (surviving_positive raw) as Hpos.
  destruct (filter _ (map _ raw)) as [|y kept] eqn:E.
  - rewrite total_const.
    assert (0 < inject_Z (Z.of_nat (List.length raw))) as Hn.
    { destruct raw; [congruence|]. rewrite <- (Zlt_Qlt 0). cbn [List.length]. lia. }
    field. intros H. rewrite H in Hn. now apply Qlt_irrefl in Hn.
  - rewrite total_scale.
    assert (0 < total (y :: kept)) as Hs by (apply total_positive; [discriminate|exact Hpos]).
    field. intros H. rewrite H in Hs. now apply Qlt_irrefl in Hs.
Qed.

Lemma normalize_positive raw : Forall (fun x => 0 < snd x) (normalize raw).
Proof.
  unfold normalize. cbv zeta.
  pose proof (surviving_positive raw) as Hpos.
  destruct (filter _ (map _ raw)) as [|y kept] eqn:E.
  - apply Forall_forall. intros x Hx. apply in_map_iff in Hx as (x0 & <- & Hin).
    cbn. assert (0 < inject_Z (Z.of_nat (List.length raw))) as Hn.
    { destruct raw; [destruct Hin|]. rewrite <- (Zlt_Qlt 0). cbn [List.length]. lia. }
    apply Qlt_shift_div_l; [exact Hn|]. lra.
  - assert (0 < total (y :: kept)) as Hs by (apply total_positive; [discriminate|exact Hpos]).
    apply Forall_forall. intros x Hx. apply in_map_iff in Hx as (x0 & <- & Hin).
    cbn. rewrite Forall_forall in Hpos. specialize (Hpos x0 Hin).
    apply Qmult_lt_0_compat; [exact Hpos|].
    apply Qlt_shift_div_l; [exact Hs|]. lra.
Qed.

(** When some attribution is not zero, the features that stay are those
    whose attribution is not zero, in their order. *)
Lemma normalize_keeps_nonzero raw :
  (exists x, In x raw /\ ~ snd x == 0) ->
  map fst (normalize raw) = map fst (filter nonZero raw).
Proof.
  intros (x & Hin & Hx). unfold normalize. cbv zeta.
  assert (Hf : forall l, map fst (filter (fun x => negb (Qeq_bool (snd x) 0))
                                         (map (fun x => (fst x, Qabs (snd x))) l))
                         = map fst (filter nonZero l)).
  { induction l as [|y l IH]; cbn; [reflexivity|]. unfold nonZero at 1.
    rewrite Qeq_bool_Qabs. destruct (Qeq_bool (snd y) 0); cbn; now rewrite IH. }
  destruct (filter _ (map _ raw)) as [|y kept] eqn:E.
  - exfalso. specialize (Hf raw). rewrite E in Hf. cbn in Hf.
    assert (In x (filter nonZero raw)) as Hk.
    { apply filter_In. split; [exact Hin|]. unfold nonZero.
      apply negb_true_iff. destruct (Qeq_bool (snd x) 0) eqn:Q; [|reflexivity].
      exfalso. apply Hx. now apply Qeq_bool_iff. }
    destruct (filter nonZero raw); [destruct Hk|discriminate Hf].
  - rewrite map_map. cbn [fst]. rewrite <- (Hf raw), E. reflexivity.
Qed.

Lemma normalize_length raw : (List.length (normalize raw) <= List.length raw)%nat.
Proof.
  unfold normalize. cbv zeta.
  destruct (filter _ (map _ raw)) as [|y kept] eqn:E.
  - now rewrite length_map.
  - rewrite length_map, <- E.
    etransitivity; [apply filter_length_le|]. now rewrite length_map.
Qed.

(** With K the number of features, the truncation drops nothing. *)
Lemma topK_full raw : topK (List.length raw) raw = rank (normalize raw).
Proof.
  unfold topK. apply firstn_all2. rewrite rank_length. apply normalize_length.
Qed.

End Normalization.

(* ===================================================================== *)
(** ** [predict], as specified *)
(* ===================================================================== *)

Section Predict.
Import Api Backend.

Implicit Types (l : list ((string * FeatureValue) * Q)).

Lemma importanceSum_total l : importanceSum (map contribution l) = total l.
Proof.
  induction l as [|x l IH]; [reflexivity|]. rewrite total_cons, <- IH. reflexivity.
Qed.

Lemma combine_hits {X Y} (xs : list X) (ys : list Y) (y : Y) :
  List.length ys = List.length xs -> In y ys -> exists x, In (x, y) (combine xs ys).
Proof.
  revert ys. induction xs as [|x xs IH]; intros ys Hlen Hin.
  - destruct ys; [destruct Hin|discriminate Hlen].
  - destruct ys as [|y' ys]; [destruct Hin|]. destruct Hin as [->|Hin].
    + exists x. now left.
    + destruct (IH ys) as (x0 & H0); [now injection Hlen|exact Hin|].
      exists x0. now right.
Qed.

Example predict_sample :
  match predict sampleArtifact 15 defaults with
  | inr r => map (fun c => (feature c, Qred (importance c))) (top_contributors r)
  | inl _ => []
  end
  = [("stress_level", 40); ("age", 30); ("gender", 20);
     ("blood_pressure", 5); ("alcohol_intake", 5)].
Proof. reflexivity. Qed.

Example predict_sample_top2 :
  match predict sampleArtifact 2 defaults with
  | inr r => map (fun c => (feature c, Qred (importance c))) (top_contributors r)
  | inl _ => []
  end
  = [("stress_level", 40); ("age", 30)].
Proof. reflexivity. Qed.

Example predict_invalid_gender :
  predict sampleArtifact 15 otherGender = inl (ValidationError "gender").
Proof. reflexivity. Qed.

Example normalize_all_zero :
  map snd (normalize [("a", 0); ("b", 0); ("c", 0); ("d", 0)]) = [100 / 4; 100 / 4; 100 / 4; 100 / 4].
Proof. reflexivity. Qed.

(** What the normalization gives [predict]. Take a risk model that
    keeps its contract of a score in [0,1] (an assumption here: the
    model is a trained artifact) and attributes one value to each
    feature. With K the number of features, [predict] on a schema that
    passes the domain check returns importances that are non-negative
    and sum to 100; and when some attribution is not zero, the
    contributors are the features whose attribution is not zero. *)
Theorem predict_probability_and_importances (a : Artifact) (s : HeartDiseaseInput) :
  (forall v, 0 <= model a v <= 1) ->
  (forall v, List.length (explain a v) = List.length (features s)) ->
  checkSchema s = None ->
  exists r,
    predict a (List.length (features s)) s = inr r
    /\ 0 <= risk_score r <= 1
    /\ Forall (fun c => 0 <= importance c) (top_contributors r)
    /\ importanceSum (top_contributors r) == 100
    /\ Qabs (importanceSum (top_contributors r) - 100) <= 1 # 100
    /\ ((exists q, In q (explain a (transform a s)) /\ ~ q == 0) ->
        Permutation
          (map feature (top_contributors r))
          (map (fun x => fst (fst x))
               (filter nonZero (combine (features s) (explain a (transform a s)))))).
Proof.
  intros Hmodel Hexplain Hvalid.
  unfold predict. rewrite Hvalid. eexists. split; [reflexivity|].
  cbn [risk_score top_contributors].
  set (raw := combine (features s) (explain a (transform a s))).
  assert (Hlen : List.length raw = List.length (features s)).
  { unfold raw. rewrite length_combine, Hexplain. apply Nat.min_id. }
  rewrite <- Hlen, topK_full.
  assert (Hsum : importanceSum (map contribution (rank (normalize raw))) == 100).
  { rewrite importanceSum_total, total_rank. apply normalize_total.
    intros E. rewrite E in Hlen. discriminate Hlen. }
  split; [apply Hmodel|]. split; [|split; [exact Hsum|split]].
  - apply Forall_forall. intros c Hc. apply in_map_iff in Hc as (x & <- & Hx).
    cbn. apply Qlt_le_weak.
    pose proof (normalize_positive raw) as Hpos. rewrite Forall_forall in Hpos.
    apply Hpos. apply (Permutation_in _ (rank_perm _)). exact Hx.
  - rewrite Hsum. cbn. discriminate.
  - intros (q & Hq & Hnz).
    rewrite map_map. cbn [contribution feature].
    rewrite (rank_perm (normalize raw)).
    rewrite <- (map_map fst fst), <- (map_map fst fst (filter nonZero raw)).
    rewrite normalize_keeps_nonzero; [reflexivity|].
    destruct (combine_hits (features s) _ q (Hexplain _) Hq) as (x & Hx).
    exists (x, q). split; [exact Hx|exact Hnz].
Qed.

End Predict.

(** An instance: the default form data and the sample artifact. *)
Lemma predict_probability_and_importances_witness :
  exists r,
    Backend.predict sampleArtifact 15 defaults = inr r
    /\ 0 <= Api.risk_score r <= 1
    /\ Backend.importanceSum (Api.top_contributors r) == 100.
Proof.
  destruct (predict_probability_and_importances sampleArtifact defaults)
    as (r & H1 & H2 & _ & H4 & _).
  - intros v. cbn. split; discriminate.
  - intros v. reflexivity.
  - reflexivity.
  - exists r. exact (conj H1 (conj H2 H4)).
Defined.

(* ===================================================================== *)
(** ** More on the manual form: what [handleSubmit] decides *)
(* ===================================================================== *)

Section FormDecisions.
Import ManualForm FormInputs.

Lemma domain_dec (f : ContinuousField) (d : Api.HeartDiseaseInput) :
  inDomain f d \/ (fieldOf f d < lo f \/ hi f < fieldOf f d).
Proof.
  unfold inDomain.
  destruct (Qlt_le_dec (fieldOf f d) (lo f)) as [H|H]; [right; left; exact H|].
  destruct (Qlt_le_dec (hi f) (fieldOf f d)) as [H'|H']; [right; right; exact H'|].
  left. split; assumption.
Qed.

Lemma outside_not_inDomain (f : ContinuousField) (d : Api.HeartDiseaseInput) :
  (fieldOf f d < lo f \/ hi f < fieldOf f d) -> ~ inDomain f d.
Proof. unfold inDomain. intros [H|H] [H1 H2]; lra. Qed.

(** Rewrites one range check of [validate] with its outcome [H], the
    proof of [check_inside] or of [check_outside] for that field. *)
Ltac rewrite_check H :=
  let E := fresh "E" in
  pose proof H as E;
  cbv beta iota delta [lo hi fieldOf] in E; rewrite E; clear E.

(** Settles the check of [g] when only the fields checked before the
    offending one are known to be in range. *)
Ltac settle_upto Hin Hout formData g :=
  first [ let E := fresh "E" in
          assert (E : inDomain g formData) by (apply Hin; cbn; lia);
          rewrite_check (check_inside _ _ _ E); clear E
        | rewrite_check (check_outside _ _ _ Hout)
        | idtac ].

Lemma validate_first_failure (formData : Api.HeartDiseaseInput) (f : ContinuousField) :
  (fieldOf f formData < lo f \/ hi f < fieldOf f formData) ->
  (forall g, (checkOrder g < checkOrder f)%nat -> inDomain g formData) ->
  exists msg, validate formData = inl (JS.ErrorObj msg) /\ refersTo f msg = true.
Proof.
  intros Hout Hin. unfold validate.
  destruct f;
    settle_upto Hin Hout formData Age;
    settle_upto Hin Hout formData Cholesterol;
    settle_upto Hin Hout formData BloodPressure;
    settle_upto Hin Hout formData HeartRate;
    settle_upto Hin Hout formData StressLevel;
    settle_upto Hin Hout formData BloodSugar;
    settle_upto Hin Hout formData ExerciseHours;
    cbn; eexists; split; reflexivity.
Qed.

(** Either every check passes, or some field is out of range and the
    error names it. *)
Lemma validate_decides (formData : Api.HeartDiseaseInput) :
  (validate formData = inr tt /\ forall f, inDomain f formData)
  \/ (exists f msg, validate formData = inl (JS.ErrorObj msg)
                    /\ refersTo f msg = true /\ ~ inDomain f formData).
Proof.
  assert (Hstep : forall f,
    (forall g, (checkOrder g < checkOrder f)%nat -> inDomain g formData) ->
    inDomain f formData
    \/ exists f msg, validate formData = inl (JS.ErrorObj msg)
                     /\ refersTo f msg = true /\ ~ inDomain f formData).
  { intros f Hbefore. destruct (domain_dec f formData) as [H|H]; [left; exact H|].
    right. destruct (validate_first_failure _ _ H Hbefore) as (msg & Hv & Hr).
    exists f, msg. repeat split; try assumption. now apply outside_not_inDomain. }
  destruct (Hstep Age) as [H0|H]; [intros g Hg; destruct g; cbn in Hg; lia| |right; exact H].
  destruct (Hstep Cholesterol) as [H1|H];
    [intros g Hg; destruct g; cbn in Hg; try lia; assumption| |right; exact H].
  destruct (Hstep BloodPressure) as [H2|H];
    [intros g Hg; destruct g; cbn in Hg; try lia; assumption| |right; exact H].
  destruct (Hstep HeartRate) as [H3|H];
    [intros g Hg; destruct g; cbn in Hg; try lia; assumption| |right; exact H].
  destruct (Hstep StressLevel) as [H4|H];
    [intros g Hg; destruct g; cbn in Hg; try lia; assumption| |right; exact H].
  destruct (Hstep BloodSugar) as [H5|H];
    [intros g Hg; destruct g; cbn in Hg; try lia; assumption| |right; exact H].
  destruct (Hstep ExerciseHours) as [H6|H];
    [intros g Hg; destruct g; cbn in Hg; try lia; assumption| |right; exact H].
  left. assert (Hall : forall f, inDomain f formData) by (intros f; destruct f; assumption).
  split; [apply validate_inDomain; exact Hall|exact Hall].
Qed.

(** The outcome of the checks decides the callback. *)
Lemma handleSubmit_of_validate (formData : Api.HeartDiseaseInput) :
  (validate formData = inr tt ->
   handleSubmit formData =
     [PreventDefault; SetIsSubmitting true; OnSubmit formData; SetIsSubmitting false])
  /\ (forall msg, validate formData = inl (JS.ErrorObj msg) ->
      handleSubmit formData =
        [PreventDefault; SetIsSubmitting true; OnError msg; SetIsSubmitting false]).
Proof.
  unfold handleSubmit. split; [intros ->|intros msg ->]; reflexivity.
Qed.

(** X1. [handleSubmit] calls exactly one of its two callbacks and always
    ends with [isSubmitting] false: it calls [onSubmit], with the form
    data, exactly when all seven continuous fields are in range, and
    otherwise [onError] with a message that names a field out of range. *)
Theorem handleSubmit_decides (formData : Api.HeartDiseaseInput) :
  (handleSubmit formData =
     [PreventDefault; SetIsSubmitting true; OnSubmit formData; SetIsSubmitting false]
   /\ forall f, inDomain f formData)
  \/ (exists f msg,
        handleSubmit formData =
          [PreventDefault; SetIsSubmitting true; OnError msg; SetIsSubmitting false]
        /\ refersTo f msg = true /\ ~ inDomain f formData).
Proof.
  destruct (validate_decides formData) as [[Hv Hall]|(f & msg & Hv & Hr & Hout)].
  - left. split; [|exact Hall]. unfold handleSubmit. now rewrite Hv.
  - right. exists f, msg. unfold handleSubmit. rewrite Hv. cbn. auto.
Qed.

(** X2. When several fields are out of range, the error is the one of
    the first failing check, in the order age, cholesterol, blood
    pressure, heart rate, stress level, blood sugar, exercise hours:
    whatever the later fields hold, one error is reported and it names
    that field. *)
Theorem handleSubmit_reports_first_failure
  (formData : Api.HeartDiseaseInput) (f : ContinuousField) :
  ~ inDomain f formData ->
  (forall g, (checkOrder g < checkOrder f)%nat -> inDomain g formData) ->
  exists msg,
    handleSubmit formData =
      [PreventDefault; SetIsSubmitting true; OnError msg; SetIsSubmitting false]
    /\ refersTo f msg = true.
Proof.
  intros Hout Hin.
  destruct (domain_dec f formData) as [H|H]; [contradiction|].
  destruct (validate_first_failure _ _ H Hin) as (msg & Hv & Hr).
  exists msg. unfold handleSubmit. rewrite Hv. cbn. auto.
Qed.

End FormDecisions.

(** Witness for X2: cholesterol and stress level both out of range. *)
Lemma handleSubmit_reports_first_failure_witness :
  exists msg,
    ManualForm.handleSubmit (withField Cholesterol 700 (withField StressLevel 0 defaults)) =
      [ManualForm.PreventDefault; ManualForm.SetIsSubmitting true;
       ManualForm.OnError msg; ManualForm.SetIsSubmitting false]
    /\ refersTo Cholesterol msg = true.
Proof.
  apply handleSubmit_reports_first_failure.
  - unfold inDomain. cbn. intros [_ H]. apply H. reflexivity.
  - intros g Hg. destruct g; cbn in Hg; try lia. unfold inDomain. cbn. lra.
Defined.

(* ===================================================================== *)
(** ** Editing the form, and the form an upload fills *)
(* ===================================================================== *)

Section FormEditing.
Import ManualForm FormInputs.

(** A number input writes its own field and no other. *)
Lemma fieldOf_change (f g : ContinuousField) (v : JS.number) (d : Api.HeartDiseaseInput) :
  fieldOf g (handleInputChange (NumberChange f v) d)
  = if Nat.eqb (checkOrder f) (checkOrder g) then v else fieldOf g d.
Proof. destruct f, g; reflexivity. Qed.

Lemma change_elsewhere (f : ContinuousField) (p : Parsed) (d : Api.HeartDiseaseInput) :
  (forall g, inDomain g d) ->
  forall g, g <> f -> inDomain g (handleInputChange (onNumberInput f p) d).
Proof.
  intros H g Hg. unfold inDomain, onNumberInput. rewrite fieldOf_change.
  destruct (Nat.eqb_spec (checkOrder f) (checkOrder g)) as [E|_]; [|apply H].
  exfalso. apply Hg. destruct f, g; try reflexivity; discriminate E.
Qed.

(** A number input that stores a value in range leaves the form in range. *)
Lemma change_inDomain (f : ContinuousField) (p : Parsed) (d : Api.HeartDiseaseInput) :
  (forall g, inDomain g d) ->
  lo f <= orParsed p (fallback f) <= hi f ->
  forall g, inDomain g (handleInputChange (onNumberInput f p) d).
Proof.
  intros Hall Hrange g.
  destruct (Nat.eqb_spec (checkOrder f) (checkOrder g)) as [E|E].
  - unfold inDomain, onNumberInput. rewrite fieldOf_change.
    apply Nat.eqb_eq in E. rewrite E.
    assert (g = f) as -> by (destruct f, g; try reflexivity; discriminate E).
    exact Hrange.
  - apply change_elsewhere; [exact Hall|]. intros ->. now apply E.
Qed.

Example typing_zero_stress :
  Api.stress_level (handleInputChange (onNumberInput StressLevel (Finite 0)) defaults) = 1.
Proof. reflexivity. Qed.

Example typing_minus_one_hours :
  Api.exercise_hours (handleInputChange (onNumberInput ExerciseHours (Finite (-1))) defaults)
  = -1.
Proof. reflexivity. Qed.

(** X3. After one number input on a form whose fields were in range,
    [handleSubmit] calls [onSubmit] exactly when the value the input
    stored ([parseInt(...) || fallback]) is in the range of its field. *)
Theorem edit_then_submit (formData : Api.HeartDiseaseInput) (f : ContinuousField) (p : Parsed) :
  (forall g, inDomain g formData) ->
  handleSubmit (handleInputChange (onNumberInput f p) formData) =
    [PreventDefault; SetIsSubmitting true;
     OnSubmit (handleInputChange (onNumberInput f p) formData); SetIsSubmitting false]
  <-> lo f <= orParsed p (fallback f) <= hi f.
Proof.
  intros Hall.
  assert (Hf : fieldOf f (handleInputChange (onNumberInput f p) formData)
               = orParsed p (fallback f)).
  { unfold onNumberInput. rewrite fieldOf_change. now rewrite Nat.eqb_refl. }
  split.
  - intros Hs.
    destruct (validate_decides (handleInputChange (onNumberInput f p) formData))
      as [[_ Hin]|(g & msg & Hv & _)].
    + specialize (Hin f). unfold inDomain in Hin. now rewrite Hf in Hin.
    + apply handleSubmit_of_validate in Hv. rewrite Hs in Hv. discriminate Hv.
  - intros Hrange. apply handleSubmit_inDomain. now apply change_inDomain.
Qed.

(** X4. What an emptied box, or a typed 0, becomes. In the stress-level
    input it is stored as 1 and submitted as such; in the exercise-hours
    input it is stored as 0 and submitted as such; in each of the five
    other number inputs it is stored as 0 and the submission reports the
    error of that field. *)
Theorem empty_or_zero_input
  (formData : Api.HeartDiseaseInput) (f : ContinuousField) (p : Parsed) :
  (forall g, inDomain g formData) ->
  p = NaN \/ p = Finite 0 ->
  fieldOf f (handleInputChange (onNumberInput f p) formData) = inject_Z (fallback f)
  /\ match f with
     | StressLevel | ExerciseHours =>
         handleSubmit (handleInputChange (onNumberInput f p) formData) =
           [PreventDefault; SetIsSubmitting true;
            OnSubmit (handleInputChange (onNumberInput f p) formData);
            SetIsSubmitting false]
     | _ =>
         exists msg,
           handleSubmit (handleInputChange (onNumberInput f p) formData) =
             [PreventDefault; SetIsSubmitting true; OnError msg; SetIsSubmitting false]
           /\ refersTo f msg = true
     end.
Proof.
  intros Hall Hp.
  assert (Hv : orParsed p (fallback f) = inject_Z (fallback f))
    by (destruct Hp as [->| ->]; reflexivity).
  assert (Hf : fieldOf f (handleInputChange (onNumberInput f p) formData)
               = inject_Z (fallback f)).
  { unfold onNumberInput. rewrite fieldOf_change, Nat.eqb_refl. exact Hv. }
  split; [exact Hf|].
  assert (Hreject : ~ (lo f <= inject_Z (fallback f) <= hi f) ->
    exists msg,
      handleSubmit (handleInputChange (onNumberInput f p) formData) =
        [PreventDefault; SetIsSubmitting true; OnError msg; SetIsSubmitting false]
      /\ refersTo f msg = true).
  { intros Hout.
    destruct (domain_dec f (handleInputChange (onNumberInput f p) formData)) as [Hin|Hlt].
    - exfalso. apply Hout. unfold inDomain in Hin. now rewrite Hf in Hin.
    - destruct (validate_first_failure _ _ Hlt) as (msg & Hm & Hr).
      + intros g Hg. apply change_elsewhere; [exact Hall|]. intros ->. lia.
      + exists msg. split; [now apply handleSubmit_of_validate|exact Hr]. }
  destruct f;
    first [ apply handleSubmit_inDomain, change_inDomain; [exact Hall|];
            rewrite Hv; cbn; split; discriminate
          | apply Hreject; cbn; intros [H _]; apply H; reflexivity ].
Qed.

(** X5. Two changes of the form compose as writes to a record: a second
    change of the same field overrides the first, and changes of
    different fields can be made in either order. *)
Theorem handleInputChange_composes (c1 c2 : Change) (formData : Api.HeartDiseaseInput) :
  (target c1 = target c2 ->
   handleInputChange c1 (handleInputChange c2 formData) = handleInputChange c1 formData)
  /\ (target c1 <> target c2 ->
      handleInputChange c1 (handleInputChange c2 formData)
      = handleInputChange c2 (handleInputChange c1 formData)).
Proof.
  destruct c1 as [[] v1|[] v1|[] v1], c2 as [[] v2|[] v2|[] v2];
    (split; intros H;
     first [ reflexivity | discriminate H | exfalso; apply H; reflexivity ]).
Qed.

(** A complete record whose numbers and strings are all truthy passes
    through [||] untouched. *)
Lemma initialFormData_truthy (d : Api.HeartDiseaseInput) :
  (forall f, JS.truthyNumber (fieldOf f d) = true) ->
  (forall c, JS.truthyString (categoryOf c d) = true) ->
  initialFormData (Some (toPartial d)) = d.
Proof.
  intros Hnum Hcat.
  assert (B : forall b, JS.orBool (Some b) false = b) by (intros []; reflexivity).
  pose proof (Hnum Age) as NA. pose proof (Hnum Cholesterol) as NC.
  pose proof (Hnum BloodPressure) as NB. pose proof (Hnum HeartRate) as NH.
  pose proof (Hnum StressLevel) as NS. pose proof (Hnum BloodSugar) as NG.
  pose proof (Hnum ExerciseHours) as NE.
  pose proof (Hcat Gender) as SG. pose proof (Hcat Smoking) as SS.
  pose proof (Hcat AlcoholIntake) as SA. pose proof (Hcat ChestPainType) as SC.
  destruct d. cbn [fieldOf categoryOf Api.age Api.gender Api.cholesterol
                   Api.blood_pressure Api.heart_rate Api.smoking Api.alcohol_intake
                   Api.exercise_hours Api.stress_level Api.blood_sugar
                   Api.chest_pain_type] in *.
  unfold initialFormData. cbn -[JS.truthyNumber JS.truthyString JS.orBool].
  rewrite NA, NC, NB, NH, NS, NG, NE, SG, SS, SA, SC, !B. reflexivity.
Qed.

Lemma truthyNumber_nonzero (x : JS.number) : ~ x == 0 -> JS.truthyNumber x = true.
Proof.
  intros H. unfold JS.truthyNumber. destruct (Qeq_bool x 0) eqn:E; [|reflexivity].
  apply Qeq_bool_iff in E. contradiction.
Qed.

Lemma truthyString_nonempty (x : string) : x <> "" -> JS.truthyString x = true.
Proof. destruct x; [congruence|reflexivity]. Qed.

(** X6. The form an upload fills shows the extracted record itself,
    field for field, when none of its numbers is 0 and none of its
    categorical strings is empty. *)
Theorem initialFormData_keeps_truthy (d : Api.HeartDiseaseInput) :
  (forall f, ~ fieldOf f d == 0) ->
  (forall c, categoryOf c d <> "") ->
  initialFormData (Some (toPartial d)) = d.
Proof.
  intros Hnum Hcat. apply initialFormData_truthy.
  - intros f. apply truthyNumber_nonzero, Hnum.
  - intros c. apply truthyString_nonempty, Hcat.
Qed.

(** X7. A form that starts from initial data whose numbers, where
    present, are in their ranges can be submitted at once: with the
    defaults filling what is missing (or 0), every check passes. *)
Theorem prefilled_form_submits (initialData : option PartialInput) :
  (forall d f v, initialData = Some d -> partialFieldOf f d = Some v ->
                 lo f <= v <= hi f) ->
  handleSubmit (initialFormData initialData) =
  [PreventDefault; SetIsSubmitting true;
   OnSubmit (initialFormData initialData); SetIsSubmitting false].
Proof.
  intros H. apply handleSubmit_inDomain. intros f.
  assert (D : forall (x : option JS.number) (dflt : Q),
             lo f <= dflt <= hi f ->
             (forall v, x = Some v -> lo f <= v <= hi f) ->
             lo f <= JS.orNumber x dflt <= hi f).
  { intros x dflt Hd Hx. unfold JS.orNumber. destruct x as [v|]; [|exact Hd].
    destruct (JS.truthyNumber v); [apply Hx; reflexivity|exact Hd]. }
  unfold inDomain.
  destruct initialData as [d|].
  - destruct f; cbn [fieldOf initialFormData Api.age Api.cholesterol Api.blood_pressure
                     Api.heart_rate Api.stress_level Api.blood_sugar Api.exercise_hours opt];
      (apply D; [cbn; lra|]);
      intros v Hv;
      first [ apply (H d Age v eq_refl Hv) | apply (H d Cholesterol v eq_refl Hv)
            | apply (H d BloodPressure v eq_refl Hv) | apply (H d HeartRate v eq_refl Hv)
            | apply (H d StressLevel v eq_refl Hv) | apply (H d BloodSugar v eq_refl Hv)
            | apply (H d ExerciseHours v eq_refl Hv) ].
  - destruct f; cbn; lra.
Qed.

End FormEditing.

(** Witness for X3: the age 64 typed into the default form. *)
Lemma edit_then_submit_witness :
  ManualForm.handleSubmit
    (FormInputs.handleInputChange (FormInputs.onNumberInput Age (FormInputs.Finite 64)) defaults) =
  [ManualForm.PreventDefault; ManualForm.SetIsSubmitting true;
   ManualForm.OnSubmit
     (FormInputs.handleInputChange (FormInputs.onNumberInput Age (FormInputs.Finite 64)) defaults);
   ManualForm.SetIsSubmitting false].
Proof.
  apply (edit_then_submit defaults Age (FormInputs.Finite 64)).
  - intros g. destruct g; unfold inDomain; cbn; lra.
  - split; unfold Qle; cbn; lia.
Defined.

(** Witness for X4: the age box of the default form, emptied. *)
Lemma empty_or_zero_input_witness :
  exists msg,
    ManualForm.handleSubmit
      (FormInputs.handleInputChange (FormInputs.onNumberInput Age FormInputs.NaN) defaults) =
      [ManualForm.PreventDefault; ManualForm.SetIsSubmitting true;
       ManualForm.OnError msg; ManualForm.SetIsSubmitting false]
    /\ refersTo Age msg = true.
Proof.
  apply (empty_or_zero_input defaults Age FormInputs.NaN).
  - intros g. destruct g; unfold inDomain; cbn; lra.
  - left. reflexivity.
Defined.

(** Witness for X6: the record with the gender "Other". *)
Lemma initialFormData_keeps_truthy_witness :
  ManualForm.initialFormData (Some (ManualForm.toPartial otherGender)) = otherGender.
Proof.
  apply initialFormData_keeps_truthy.
  - intros f. destruct f; cbn; intros H; discriminate H.
  - intros c. destruct c; cbn; discriminate.
Defined.

(** Witness for X7: the defaults as initial data, with 0 exercise hours. *)
Lemma prefilled_form_submits_witness :
  ManualForm.handleSubmit
    (ManualForm.initialFormData (Some (withExerciseHours (Some 0) (ManualForm.toPartial defaults)))) =
  [ManualForm.PreventDefault; ManualForm.SetIsSubmitting true;
   ManualForm.OnSubmit
     (ManualForm.initialFormData
        (Some (withExerciseHours (Some 0) (ManualForm.toPartial defaults))));
   ManualForm.SetIsSubmitting false].
Proof.
  apply prefilled_form_submits.
  intros d f v Hd Hv. injection Hd as <-.
  destruct f; cbn in Hv; injection Hv as <-; cbn; lra.
Defined.

(* ===================================================================== *)
(** ** The upload card and the application around it *)
(* ===================================================================== *)

Section Uploads.
Import Api App.
Local Open Scope list_scope.

Variable predict : HeartDiseaseInput -> JS.Exc HeartDiseasePrediction.
Variable uploadFile : File -> JS.Exc UploadResponse.

(** [onDrop] is its two halves, one after the other. *)
Lemma onDrop_halves (file : File) (others : list File) :
  UploadCard.onDrop uploadFile (file :: others)
  = Async.onDropBefore (file :: others) ++ Async.onDropAfter (uploadFile file).
Proof.
  unfold UploadCard.onDrop, Async.onDropBefore, Async.onDropAfter.
  destruct (uploadFile file) as [e|r]; reflexivity.
Qed.

Lemma handleFormSubmit_halves (data : HeartDiseaseInput) :
  handleFormSubmit predict data
  = Async.handleFormSubmitBefore data ++ Async.handleFormSubmitAfter (predict data).
Proof. reflexivity. Qed.

(** X8. A form that fails a check sends nothing: the application issues
    no request and only its error changes. A form that passes sends one
    request to [/predict], with the form data as it is. *)
Theorem submit_sends_valid_data_only (formData : HeartDiseaseInput) (st : State) :
  ((forall f, inDomain f formData) /\
   calls (submitEffects predict formData) = [Predict formData])
  \/ (exists f msg,
        ~ inDomain f formData
        /\ refersTo f msg = true
        /\ calls (submitEffects predict formData) = []
        /\ run st (submitEffects predict formData) =
           {| currentState := currentState st; prediction := prediction st;
              error := Some msg; extractedData := extractedData st |}).
Proof.
  unfold submitEffects.
  destruct (validate_decides formData) as [[Hv Hall]|(f & msg & Hv & Hr & Hout)];
    apply handleSubmit_of_validate in Hv; rewrite Hv.
  - left. split; [exact Hall|]. cbn. unfold handleFormSubmit.
    destruct (predict formData); reflexivity.
  - right. exists f, msg. repeat split; assumption.
Qed.

(** X9. A drop with no accepted file does nothing. A drop with files
    uploads the first one only; whatever the upload does, [onDrop] sets
    [isUploading] at its start and clears it at its end, issues that one
    request, and calls exactly one callback, once. *)
Theorem onDrop_protocol (file : File) (others : list File) :
  UploadCard.onDrop uploadFile [] = []
  /\ UploadCard.onDrop uploadFile (file :: others) = UploadCard.onDrop uploadFile [file]
  /\ exists stored callback,
       UploadCard.onDrop uploadFile (file :: others)
       = [UploadCard.SetIsUploading true; UploadCard.SetUploadResult None;
          UploadCard.Call (UploadFile file)]
         ++ stored ++ [callback; UploadCard.SetIsUploading false]
       /\ (stored = [] \/ exists r, stored = [UploadCard.SetUploadResult (Some r)])
       /\ ((exists data, callback = UploadCard.OnDataExtracted data)
           \/ (exists msg, callback = UploadCard.OnError msg)).
Proof.
  split; [reflexivity|]. split; [reflexivity|].
  unfold UploadCard.onDrop.
  destruct (uploadFile file) as [e|r].
  - exists [], (UploadCard.OnError (JS.messageOr "Upload failed" e)).
    repeat split; [now left|right; eauto].
  - destruct (success r) eqn:Hs, (extracted_data r) as [data|] eqn:Hd.
    + exists [UploadCard.SetUploadResult (Some r)], (UploadCard.OnDataExtracted data).
      repeat split; [right; eauto|left; eauto].
    + exists [UploadCard.SetUploadResult (Some r)], (UploadCard.OnError (message r)).
      repeat split; [right; eauto|right; eauto].
    + exists [UploadCard.SetUploadResult (Some r)], (UploadCard.OnError (message r)).
      repeat split; [right; eauto|right; eauto].
    + exists [UploadCard.SetUploadResult (Some r)], (UploadCard.OnError (message r)).
      repeat split; [right; eauto|right; eauto].
Qed.

(** X10. When the upload promise rejects, the application only records
    an error, the message of the [Error] or else "Upload failed": the
    state, the prediction and the extracted data stay as they were. *)
Theorem upload_rejected (file : File) (others : list File) (err : JS.thrown) (st : State) :
  uploadFile file = inl err ->
  run st (uploadEffects uploadFile (file :: others)) =
    {| currentState := currentState st; prediction := prediction st;
       error := Some (JS.messageOr "Upload failed" err);
       extractedData := extractedData st |}
  /\ calls (uploadEffects uploadFile (file :: others)) = [UploadFile file].
Proof.
  intros H. unfold uploadEffects, UploadCard.onDrop. rewrite H. split; reflexivity.
Qed.

(** X11. A failed upload with an empty message raises no error banner.
    When the response is not a success with data and its message is the
    empty string, [handleError] stores that empty string and nothing
    else of the application changes; the banner, rendered under
    [error && ...], stays hidden. The card has stored the response in
    its own [uploadResult] all the same. *)
Theorem upload_empty_message_hides_banner
  (file : File) (others : list File) (resp : UploadResponse) (st : State) :
  uploadFile file = inr resp ->
  success resp = false \/ extracted_data resp = None ->
  message resp = "" ->
  run st (uploadEffects uploadFile (file :: others)) =
    {| currentState := currentState st; prediction := prediction st;
       error := Some ""; extractedData := extractedData st |}
  /\ errorBanner (run st (uploadEffects uploadFile (file :: others))) = None
  /\ In (UploadCard.SetUploadResult (Some resp))
        (UploadCard.onDrop uploadFile (file :: others)).
Proof.
  intros H Hfail Hmsg. unfold uploadEffects, UploadCard.onDrop. rewrite H.
  assert (E : match success resp, extracted_data resp with
              | true, Some data => [UploadCard.OnDataExtracted data]
              | _, _ => [UploadCard.OnError (message resp)]
              end = [UploadCard.OnError ""]).
  { rewrite Hmsg. destruct Hfail as [-> | ->]; [reflexivity|].
    destruct (success resp); reflexivity. }
  rewrite E. split; [reflexivity|]. split; [reflexivity|].
  cbn. right. right. right. left. reflexivity.
Qed.

End Uploads.

(** Witness for X10: the network is down. *)
Lemma upload_rejected_witness :
  App.run App.initialState (App.uploadEffects (fun _ => inl networkError) [report]) =
    {| App.currentState := App.upload; App.prediction := None;
       App.error := Some "Network Error"; App.extractedData := None |}
  /\ App.calls (App.uploadEffects (fun _ => inl networkError) [report])
     = [Api.UploadFile report].
Proof.
  exact (upload_rejected (fun _ => inl networkError) report [] networkError
           App.initialState eq_refl).
Defined.

(** Witness for X11: a failed extraction with an empty message. *)
Lemma upload_empty_message_hides_banner_witness :
  App.run App.initialState (App.uploadEffects (fun _ => inr silent) [report]) =
    {| App.currentState := App.upload; App.prediction := None;
       App.error := Some ""; App.extractedData := None |}
  /\ App.errorBanner (App.run App.initialState (App.uploadEffects (fun _ => inr silent) [report]))
     = None
  /\ In (UploadCard.SetUploadResult (Some silent))
        (UploadCard.onDrop (fun _ => inr silent) [report]).
Proof.
  exact (upload_empty_message_hides_banner (fun _ => inr silent) report [] silent
           App.initialState eq_refl (or_introl eq_refl) eq_refl).
Defined.

(* ===================================================================== *)
(** ** Invariants of a session *)
(* ===================================================================== *)

Section Sessions.
Import Api App Session.
Local Open Scope list_scope.

(** What holds at the start and is kept by every turn holds after any
    sequence of turns. *)
Lemma after_ind (P : Session -> Prop) :
  P start -> (forall s l, P s -> P (next s l)) -> forall ls, P (after ls).
Proof.
  intros H0 Hstep ls. unfold after. generalize start H0.
  induction ls as [|l ls IH]; intros s Hs; [exact Hs|].
  cbn. apply IH, Hstep, Hs.
Qed.

(** The application effects of a form submission, up to the [await]. *)
Lemma submit_before (formData : HeartDiseaseInput) :
  ((forall f, inDomain f formData)
   /\ flat_map manualFormPropsBefore (ManualForm.handleSubmit formData)
      = Async.handleFormSubmitBefore formData)
  \/ (exists msg, flat_map manualFormPropsBefore (ManualForm.handleSubmit formData)
                  = handleError msg).
Proof.
  destruct (validate_decides formData) as [[Hv Hall]|(f & msg & Hv & _)];
    apply handleSubmit_of_validate in Hv; rewrite Hv.
  - left. split; [exact Hall|reflexivity].
  - right. exists msg. reflexivity.
Qed.

Lemma submit_before_valid (formData : HeartDiseaseInput) :
  (forall f, inDomain f formData) ->
  flat_map manualFormPropsBefore (ManualForm.handleSubmit formData)
  = Async.handleFormSubmitBefore formData.
Proof.
  intros Hall. now rewrite (handleSubmit_inDomain formData Hall).
Qed.

Example session_submit_success :
  app (after [User EnterHealthData; User SubmitForm;
              Settle 0 (PredictSettled (inr lowRisk))])
  = {| currentState := result; prediction := Some lowRisk;
       error := None; extractedData := None |}.
Proof. reflexivity. Qed.

Example session_edit_lost :
  option_map age
    (form (after [User EnterHealthData;
                  User (EditForm (FormInputs.onNumberInput Age (FormInputs.Finite 64)));
                  User SubmitForm;
                  Settle 0 (PredictSettled (inl networkError))]))
  = Some 50.
Proof. reflexivity. Qed.

(** X12. Whatever the user does and however the requests settle, and in
    whatever order, the [result] state always has a prediction to show:
    the empty branch of [renderContent] is never taken. *)
Theorem result_always_has_prediction (ls : list Label) :
  (currentState (app (after ls)) = result ->
   exists p, prediction (app (after ls)) = Some p)
  /\ renderContent (app (after ls)) <> NoContent.
Proof.
  assert (H : currentState (app (after ls)) = result ->
              exists p, prediction (app (after ls)) = Some p).
  { apply (after_ind (fun s => currentState (app s) = result ->
                               exists p, prediction (app s) = Some p)).
    - discriminate.
    - intros s l IH. destruct l as [e|n o].
      + destruct e as [files|data| | |change| |]; cbn [next].
        * destruct files; cbn; exact IH.
        * cbn. discriminate.
        * cbn. discriminate.
        * cbn. discriminate.
        * exact IH.
        * destruct (form s) as [fd|]; [|exact IH].
          destruct (submit_before fd) as [[_ E]|[msg E]]; rewrite E; cbn;
            [discriminate|exact IH].
        * cbn. discriminate.
      + cbn [next]. destruct (nth_error (inFlight s) n) as [c|]; [|exact IH].
        destruct c, o as [settled|settled]; try exact IH.
        * destruct settled as [e|r]; cbn; [discriminate|intros _; eauto].
        * destruct settled as [e|r]; cbn; [exact IH|].
          destruct (success r), (extracted_data r); cbn; first [discriminate|exact IH]. }
  split; [exact H|].
  unfold renderContent. destruct (currentState (app (after ls))) eqn:E; try discriminate.
  destruct (H eq_refl) as [p ->]. discriminate.
Qed.

Lemma in_without {X} (n : nat) (l : list X) (x : X) : In x (without n l) -> In x l.
Proof.
  unfold without. intros H. apply in_app_or in H as [H|H].
  - rewrite <- (firstn_skipn n l). apply in_or_app. now left.
  - rewrite <- (firstn_skipn (S n) l). apply in_or_app. now right.
Qed.


(** Taking a request that is not a prediction out of the list keeps the
    predictions in it. *)
Lemma without_keeps_predict (n : nat) (l : list ApiCall) (c : ApiCall) :
  nth_error l n = Some c -> predictInFlight c = false ->
  existsb predictInFlight (without n l) = existsb predictInFlight l.
Proof.
  revert n. induction l as [|x l IH]; intros [|n] H Hc; try discriminate H.
  - cbn in H. injection H as ->. unfold without. cbn. now rewrite Hc.
  - cbn in H. change (without (S n) (x :: l)) with (x :: without n l).
    cbn [existsb]. now rewrite (IH n H Hc).
Qed.

(** X13. The loading screen is shown only while a request to
    [/predict] is in flight: in every session, after any turns, the
    [loading] state comes with a prediction request that has not settled. *)
Theorem loading_has_request_in_flight (ls : list Label) :
  currentState (app (after ls)) = loading ->
  existsb predictInFlight (inFlight (after ls)) = true.
Proof.
  apply (after_ind (fun s => currentState (app s) = loading ->
                             existsb predictInFlight (inFlight s) = true)).
  - discriminate.
  - intros s l IH. destruct l as [e|n o].
    + destruct e as [files|data| | |change| |]; cbn [next].
      * destruct files; cbn; rewrite existsb_app; cbn; rewrite orb_false_r; exact IH.
      * cbn. discriminate.
      * cbn. discriminate.
      * cbn. discriminate.
      * exact IH.
      * destruct (form s) as [fd|]; [|exact IH].
        destruct (submit_before fd) as [[_ E]|[msg E]]; rewrite E; cbn;
          rewrite existsb_app; cbn; intros H; [apply orb_true_r|].
        rewrite orb_false_r. exact (IH H).
      * cbn. discriminate.
    + cbn [next]. destruct (nth_error (inFlight s) n) as [c|] eqn:Hn; [|exact IH].
      destruct c, o as [settled|settled]; try exact IH.
      * destruct settled as [e|r]; cbn; discriminate.
      * assert (K : existsb predictInFlight (without n (inFlight s) ++ [])
                    = existsb predictInFlight (inFlight s)).
        { rewrite app_nil_r. now apply (without_keeps_predict n _ _ Hn). }
        destruct settled as [e|r]; cbn; [rewrite K; exact IH|].
        destruct (success r), (extracted_data r); cbn;
          first [discriminate|rewrite K; exact IH].
Qed.

(** X14. No request to [/predict] ever carries a continuous field out
    of its range: in every session, after any turns, the data of each
    prediction request in flight passed the seven checks. *)
Theorem requests_carry_checked_data (ls : list Label) (data : HeartDiseaseInput) :
  In (Predict data) (inFlight (after ls)) -> forall f, inDomain f data.
Proof.
  apply (after_ind (fun s => In (Predict data) (inFlight s) -> forall f, inDomain f data)).
  - intros [].
  - intros s l IH. destruct l as [e|n o].
    + destruct e as [files|d| | |change| |]; cbn [next];
        try (cbn; rewrite app_nil_r; exact IH).
      * destruct files; cbn; intros H; apply in_app_or in H as [H|H];
          first [exact (IH H) | destruct H as [H|[]]; discriminate H | destruct H].
      * exact IH.
      * destruct (form s) as [fd|]; [|exact IH].
        destruct (submit_before fd) as [[Hall E]|[msg E]]; rewrite E; cbn;
          intros H; apply in_app_or in H as [H|H]; try exact (IH H).
        -- destruct H as [H|[]]. injection H as <-. exact Hall.
        -- destruct H.
    + cbn [next]. destruct (nth_error (inFlight s) n) as [c|] eqn:Hn; [|exact IH].
      assert (K : forall es, calls es = [] ->
                   In (Predict data) (inFlight (commit s es (without n (inFlight s)))) ->
                   forall f, inDomain f data).
      { intros es Hes. cbn. rewrite Hes, app_nil_r. intros H. apply IH.
        exact (in_without _ _ _ H). }
      destruct c, o as [settled|settled]; try exact IH; apply K.
      * destruct settled; reflexivity.
      * destruct settled as [e|r]; [reflexivity|]. cbn.
        destruct (success r), (extracted_data r); reflexivity.
Qed.

(** The form is mounted exactly in the [manual] state. *)
Lemma form_mounted_in_manual (ls : list Label) :
  (currentState (app (after ls)) = manual -> form (after ls) <> None)
  /\ (currentState (app (after ls)) <> manual -> form (after ls) = None).
Proof.
  apply (after_ind (fun s => (currentState (app s) = manual -> form s <> None)
                             /\ (currentState (app s) <> manual -> form s = None))).
  - split; [discriminate|reflexivity].
  - intros s l IH.
    assert (C : forall es rem,
      (currentState (app (commit s es rem)) = manual -> form (commit s es rem) <> None)
      /\ (currentState (app (commit s es rem)) <> manual -> form (commit s es rem) = None)).
    { intros es rem. unfold commit. cbn [app form].
      destruct (currentState (run (app s) es)) eqn:E1; cbn [isManual];
        try (split; [discriminate|reflexivity]).
      split; [|congruence]. intros _.
      destruct (currentState (app s)) eqn:E2; cbn [isManual]; try discriminate.
      apply IH. reflexivity. }
    destruct l as [e|n o].
    + destruct e as [files|d| | |change| |]; cbn [next]; try apply C.
      * cbn [app form]. destruct IH as [I1 I2]. split.
        -- intros H. specialize (I1 H). destruct (form s); [discriminate|congruence].
        -- intros H. now rewrite (I2 H).
      * destruct (form s) as [fd|] eqn:F; [apply C|]. rewrite F. exact IH.
    + cbn [next]. destruct (nth_error (inFlight s) n) as [c|]; [|exact IH].
      destruct c, o; first [apply C|exact IH].
Qed.


(** X16. From the upload to the request: when an upload succeeds with a
    record that is in range and has no 0 among its exercise hours and no
    empty categorical string, submitting the form it fills, untouched,
    sends exactly that record to [/predict]. *)
Theorem upload_then_submit_sends_extracted
  (file : File) (others : list File) (resp : UploadResponse) (data : HeartDiseaseInput) :
  success resp = true ->
  extracted_data resp = Some data ->
  (forall f, inDomain f data) ->
  ~ exercise_hours data == 0 ->
  (forall c, FormInputs.categoryOf c data <> "") ->
  inFlight (after [User (DropFiles (file :: others));
                   Settle 0 (UploadSettled (inr resp));
                   User SubmitForm])
  = [Predict data]
  /\ currentState (app (after [User (DropFiles (file :: others));
                               Settle 0 (UploadSettled (inr resp));
                               User SubmitForm]))
     = loading.
Proof.
  intros Hs Hd Hall Hex Hcat.
  assert (Hnum : forall f, ~ fieldOf f data == 0).
  { intros f H. pose proof (Hall f) as [H1 _]. unfold inDomain in H1.
    destruct f; cbn in H, H1; first [exact (Hex H) | lra]. }
  unfold after. cbn [fold_left].
  set (s1 := next start (User (DropFiles (file :: others)))).
  assert (E1 : s1 = {| app := initialState; form := None; inFlight := [UploadFile file] |})
    by reflexivity.
  set (s2 := next s1 (Settle 0 (UploadSettled (inr resp)))).
  assert (E2 : s2 = {| app := {| currentState := manual; prediction := None;
                                 error := None; extractedData := Some data |};
                       form := Some data; inFlight := [] |}).
  { unfold s2. rewrite E1. cbn [next nth_error inFlight]. unfold Async.onDropAfter.
    rewrite Hs, Hd. unfold commit. cbn -[ManualForm.initialFormData].
    rewrite initialFormData_truthy; [reflexivity| |].
    - intros f. apply truthyNumber_nonzero, Hnum.
    - intros c. apply truthyString_nonempty, Hcat. }
  rewrite E2. cbn [next form]. rewrite (submit_before_valid data Hall).
  split; reflexivity.
Qed.

End Sessions.

(* ===================================================================== *)
(** ** Runs of a session *)
(* ===================================================================== *)

Section SessionRuns.
Import Api App Session.

(** Witness for X13: the default form, just submitted. *)
Lemma loading_has_request_in_flight_witness :
  existsb predictInFlight (inFlight (after [User EnterHealthData; User SubmitForm])) = true.
Proof.
  apply (loading_has_request_in_flight [User EnterHealthData; User SubmitForm]).
  reflexivity.
Defined.

(** Witness for X14: the age 64 typed into the default form, and sent. *)
Lemma requests_carry_checked_data_witness :
  inDomain Age (FormInputs.handleInputChange
                  (FormInputs.onNumberInput Age (FormInputs.Finite 64)) defaults).
Proof.
  apply (requests_carry_checked_data
           [User EnterHealthData;
            User (EditForm (FormInputs.onNumberInput Age (FormInputs.Finite 64)));
            User SubmitForm]).
  left. reflexivity.
Defined.


(** Witness for X16: a report from which the default record is read. *)
Lemma upload_then_submit_sends_extracted_witness :
  inFlight (after [User (DropFiles [report]);
                   Settle 0 (UploadSettled
                               (inr {| success := true; message := "ok";
                                       extracted_data := Some defaults;
                                       confidence := None |}));
                   User SubmitForm])
  = [Predict defaults].
Proof.
  refine (proj1 (upload_then_submit_sends_extracted report []
                   {| success := true; message := "ok";
                      extracted_data := Some defaults; confidence := None |}
                   defaults eq_refl eq_refl _ _ _)).
  - intros f. destruct f; unfold inDomain; cbn; lra.
  - cbn. intros H. discriminate H.
  - intros c. destruct c; cbn; discriminate.
Defined.

End SessionRuns.

(* ===================================================================== *)
(** ** More on the client and on the result card *)
(* ===================================================================== *)

Section ClientAndCard.
Import Api.

(** X17. Every request of the client goes to the same base URL, and it
    is never empty: it is the value of [VITE_API_URL] whenever that is
    set and not the empty string, and "/api" when it is unset or empty. *)
Theorem request_base_url (VITE_API_URL : option string) (call : ApiCall) :
  baseURL (config (request VITE_API_URL call)) = Some (API_BASE_URL VITE_API_URL)
  /\ API_BASE_URL VITE_API_URL <> ""
  /\ (forall u, VITE_API_URL = Some u -> u <> "" ->
      baseURL (config (request VITE_API_URL call)) = Some u)
  /\ (VITE_API_URL = None \/ VITE_API_URL = Some "" ->
      baseURL (config (request VITE_API_URL call)) = Some "/api").
Proof.
  assert (B : baseURL (config (request VITE_API_URL call))
              = Some (API_BASE_URL VITE_API_URL)) by (destruct call; reflexivity).
  rewrite B. split; [reflexivity|].
  unfold API_BASE_URL, JS.orString. split; [|split].
  - destruct VITE_API_URL as [[|c u]|]; cbn; discriminate.
  - intros u -> Hu. destruct u; [congruence|reflexivity].
  - intros [-> | ->]; reflexivity.
Qed.

(** Witness for X17: a deployment that sets the variable. *)
Lemma request_base_url_witness :
  baseURL (config (request (Some "https://heart.example/api") HealthCheck))
  = Some "https://heart.example/api".
Proof.
  apply (request_base_url (Some "https://heart.example/api") HealthCheck).
  - reflexivity.
  - discriminate.
Defined.

(** X18. An answer that arrives within the 30 seconds reaches the caller
    as the far end gave it: the interceptors pass a response and an
    error on unchanged, and no timeout error takes their place. *)
Theorem answer_in_time_is_delivered
  (VITE_API_URL : option string) (call : ApiCall)
  (A : Type) (ms : Z) (answer : JS.Exc A) :
  (ms <= 30000)%Z ->
  dispatch (request VITE_API_URL call) (After ms) answer
  = match answer with
    | inr a => Resolved a
    | inl e => Rejected e
    end.
Proof.
  intros H. unfold dispatch. rewrite request_timeout.
  change (0 <? 30000)%Z with true. cbv iota.
  destruct (Z.leb_spec ms 30000) as [_|Hgt]; [|lia].
  destruct answer; reflexivity.
Qed.

(** Witness for X18: a prediction that takes two seconds. *)
Lemma answer_in_time_is_delivered_witness :
  dispatch (request None (Predict defaults)) (After 2000) (inr lowRisk) = Resolved lowRisk.
Proof.
  apply (answer_in_time_is_delivered None (Predict defaults) HeartDiseasePrediction
           2000 (inr lowRisk)).
  lia.
Defined.

Lemma featureLabel_clean (feature : string) :
  ResultCardLabels.occurs "_" (ResultCardLabels.featureLabel feature) = false.
Proof.
  induction feature as [|c rest IH]; [reflexivity|]. cbn.
  destruct (Ascii.eqb_spec c "_") as [->|Hc]; cbn; [exact IH|].
  rewrite IH, orb_false_r. now apply Ascii.eqb_neq.
Qed.

Example featureLabel_blood_pressure :
  ResultCardLabels.featureLabel "blood_pressure" = "blood pressure".
Proof. reflexivity. Qed.

(** X19. The label the result card shows for a contributor never
    contains an underscore and is as long as the feature name; a name
    without underscores is shown as it is, and labelling a label changes
    nothing. *)
Theorem featureLabel_properties (feature : string) :
  ResultCardLabels.occurs "_" (ResultCardLabels.featureLabel feature) = false
  /\ String.length (ResultCardLabels.featureLabel feature) = String.length feature
  /\ (ResultCardLabels.occurs "_" feature = false ->
      ResultCardLabels.featureLabel feature = feature)
  /\ ResultCardLabels.featureLabel (ResultCardLabels.featureLabel feature)
     = ResultCardLabels.featureLabel feature.
Proof.
  assert (Hkeep : forall s, ResultCardLabels.occurs "_" s = false ->
                            ResultCardLabels.featureLabel s = s).
  { induction s as [|c rest IH]; [reflexivity|]. cbn.
    destruct (Ascii.eqb c "_"); cbn; [discriminate|]. intros H. now rewrite IH. }
  split; [apply featureLabel_clean|]. split; [|split].
  - induction feature as [|c rest IH]; [reflexivity|]. cbn. now rewrite IH.
  - apply Hkeep.
  - apply Hkeep, featureLabel_clean.
Qed.

(** X20. The badge colour, the icon and the description of the result
    card always belong to the same tier: for every risk level string the
    three look-ups agree on low, moderate, high or none of them. *)
Theorem risk_lookups_agree (level : string) :
  In (Utils.getRiskColor level, Utils.getRiskIcon level,
      ResultCard.getRiskDescription level)
     [ ("text-green-600 bg-green-50", "✅", nth 0 ResultCard.catalog "");
       ("text-yellow-600 bg-yellow-50", "⚠️", nth 1 ResultCard.catalog "");
       ("text-red-600 bg-red-50", "🚨", nth 2 ResultCard.catalog "");
       ("text-gray-600 bg-gray-50", "❓", nth 3 ResultCard.catalog "") ].
Proof.
  unfold Utils.getRiskColor, Utils.getRiskIcon, ResultCard.getRiskDescription; cbv zeta.
  destruct (JS.toLowerCase level =? "low"); [left; reflexivity|].
  destruct (JS.toLowerCase level =? "moderate"); [right; left; reflexivity|].
  destruct (JS.toLowerCase level =? "high"); [right; right; left; reflexivity|].
  right; right; right; left; reflexivity.
Qed.

End ClientAndCard.

(* ===================================================================== *)
(** ** A value outside an enumeration, end to end *)
(* ===================================================================== *)

Section EndToEnd.
Import Api App Service.

Variable describe : Backend.PredictError -> string.
Variable a : Backend.Artifact.
Variable K : nat.

Lemma oneOf_outside (values : list string) (x : string) :
  ~ In x values -> Backend.oneOf values x = false.
Proof.
  intros H. unfold Backend.oneOf.
  destruct (existsb (String.eqb x) values) eqn:E; [|reflexivity].
  apply existsb_exists in E as (v & Hv & Heq).
  apply String.eqb_eq in Heq. subst v. contradiction.
Qed.

(** The domain check of the service names a field as soon as a
    categorical value is outside its enumeration. *)
Lemma checkSchema_outside (d : HeartDiseaseInput) :
  outsideEnumeration d -> exists field, Backend.checkSchema d = Some field.
Proof.
  intros H. unfold Backend.checkSchema.
  assert (G : ~ (Backend.oneOf gender_values (gender d) = true
                 /\ Backend.oneOf smoking_values (smoking d) = true
                 /\ Backend.oneOf alcohol_intake_values (alcohol_intake d) = true
                 /\ Backend.oneOf chest_pain_type_values (chest_pain_type d) = true)).
  { intros (G1 & G2 & G3 & G4).
    destruct H as [H|[H|[H|H]]]; apply oneOf_outside in H; congruence. }
  repeat match goal with
         | |- context [if negb ?b then _ else _] => destruct b eqn:?; cbn [negb]
         end; eauto.
  exfalso. apply G. auto.
Qed.

Example served_other_gender :
  served statusMessage sampleArtifact 15 otherGender
  = inl (JS.ErrorObj "Request failed with status code 422").
Proof. reflexivity. Qed.

(** C4. A form whose gender, smoking, alcohol intake or chest pain type
    is outside its enumeration is not accepted. The form does not look
    at these fields, but the [predict] it submits to fails with a
    [ValidationError]; so the submission, whether it stops at a range
    check of the form or at the service, ends with an error recorded,
    sets no prediction, and leaves the application in the form (or in
    the state it was in), never in a result. *)
Theorem submission_outside_enumeration_fails (formData : HeartDiseaseInput) (st : State) :
  outsideEnumeration formData ->
  (exists field, Backend.predict a K formData = inl (Backend.ValidationError field))
  /\ (exists msg, error (run st (submitEffects (served describe a K) formData)) = Some msg)
  /\ ((forall f, inDomain f formData) ->
      exists field,
        run st (submitEffects (served describe a K) formData) =
          {| currentState := manual; prediction := prediction st;
             error := Some (describe (Backend.ValidationError field));
             extractedData := extractedData st |}
        /\ calls (submitEffects (served describe a K) formData) = [Predict formData])
  /\ Forall (fun s => prediction s = prediction st
                      /\ forall p, renderContent s = ResultView p ->
                                   renderContent st = ResultView p)
            (states st (submitEffects (served describe a K) formData))
  /\ (forall p, ~ In (SetPrediction p) (submitEffects (served describe a K) formData))
  /\ (currentState (run st (submitEffects (served describe a K) formData)) = manual
      \/ currentState (run st (submitEffects (served describe a K) formData))
         = currentState st).
Proof.
  intros Hout.
  destruct (checkSchema_outside formData Hout) as (field & Hc).
  assert (Hp : Backend.predict a K formData = inl (Backend.ValidationError field))
    by (unfold Backend.predict; now rewrite Hc).
  split; [exists field; exact Hp|].
  unfold submitEffects.
  destruct (validate_decides formData) as [[Hv _]|(f & msg & Hv & _ & Hnot)];
    apply handleSubmit_of_validate in Hv; rewrite Hv; cbn [flat_map manualFormProps app].
  - unfold handleFormSubmit, served. rewrite Hp. cbn.
    split; [eexists; reflexivity|].
    split; [intros _; exists field; split; reflexivity|].
    split; [|split; [|now left]].
    + repeat constructor; cbn; try reflexivity; intros p E; discriminate E.
    + intros p [E|[E|[E|[E|[E|[]]]]]]; discriminate E.
  - cbn. split; [eexists; reflexivity|].
    split; [intros Hall; exfalso; apply Hnot, Hall|].
    split; [|split; [|now right]].
    + repeat constructor. intros p E. exact E.
    + intros p [E|[]]. discriminate E.
Qed.

End EndToEnd.

(** Witness for C4: the gender "Other" in the default form. *)
Lemma submission_outside_enumeration_fails_witness :
  (exists field,
     Backend.predict sampleArtifact 15 otherGender = inl (Backend.ValidationError field))
  /\ (exists msg,
        App.error (App.run App.initialState
                     (App.submitEffects (Service.served Service.statusMessage sampleArtifact 15)
                                        otherGender))
        = Some msg).
Proof.
  destruct (submission_outside_enumeration_fails Service.statusMessage sampleArtifact 15
              otherGender App.initialState) as (H1 & H2 & _).
  - left. cbn. intros [E|[E|[]]]; discriminate E.
  - exact (conj H1 H2).
Defined.

Example submission_other_gender :
  App.run App.initialState
    (App.submitEffects (Service.served Service.statusMessage sampleArtifact 15) otherGender)
  = {| App.currentState := App.manual; App.prediction := None;
       App.error := Some "Request failed with status code 422";
       App.extractedData := None |}.
Proof. reflexivity. Qed.
